(** * Agency Leads Dashboard API: a shallow embedding of [main.py] and
    [schemas.py], and the properties of the authentication and
    tenant-isolation logic.

    Layout:
    - Python strings, [str.replace], [bytes.fromhex] and [bson.ObjectId];
    - Python values, dictionaries (documents) and exceptions;
    - a state-and-exception monad for the handlers;
    - the document store interface and an in-memory store;
    - the pydantic models of [schemas.py] and of [main.py];
    - the handlers of [main.py], in source order;
    - the properties. *)

From stdpp Require Import gmap strings list fin_maps.
From Stdlib Require Import Ascii DecimalString.

Open Scope string_scope.
Open Scope nat_scope.
Open Scope list_scope.
Open Scope stdpp_scope.

(** ** Python [str]

    A Python [str] is modelled by a Rocq [string] (characters are the 8-bit
    [ascii] ones; every literal of the program is ASCII). *)

Module PyStr.

(** [s.replace(old, new)] for a non-empty [old]: a single left-to-right scan
    that replaces each occurrence found and resumes after it (occurrences
    never overlap).  [skip] counts the characters of a matched occurrence
    that are still to be dropped. *)
Fixpoint replace_from (old new : string) (skip : nat) (s : string) : string :=
  match s with
  | EmptyString => EmptyString
  | String c s' =>
      match skip with
      | S k => replace_from old new k s'
      | O =>
          if String.prefix old s
          then new +:+ replace_from old new (String.length old - 1) s'
          else String c (replace_from old new 0 s')
      end
  end.

Definition replace (old new s : string) : string := replace_from old new 0 s.

(** [n] copies of [s], as [s * n]. *)
Fixpoint times (s : string) (n : nat) : string :=
  match n with
  | O => EmptyString
  | S k => s +:+ times s k
  end.

(** [p] written [n] times in front of [s]. *)
Fixpoint prefixed (p : string) (n : nat) (s : string) : string :=
  match n with
  | O => s
  | S k => p +:+ prefixed p k s
  end.

(** Truth value of a [str]: non-empty. *)
Definition truthy (s : string) : bool :=
  match s with EmptyString => false | String _ _ => true end.

(** [c in s] for a single character. *)
Fixpoint has_char (c : ascii) (s : string) : bool :=
  match s with
  | EmptyString => false
  | String d s' => if decide (c = d) then true else has_char c s'
  end.

(** [str(n)] of an integer. *)
Definition of_Z (n : Z) : string := NilZero.string_of_int (Z.to_int n).

(** Decimal rendering of [n], zero-padded to [width] characters. *)
Definition padded (width n : nat) : string :=
  let digits := NilZero.string_of_uint (Nat.to_uint n) in
  times "0" (width - String.length digits) +:+ digits.

End PyStr.

(** ** [bytes.fromhex], [bytes.hex] and [bson.ObjectId]

    A Python [bytes] object is a [string] of 8-bit characters. *)

Module Bson.

(** [Py_ISSPACE]: the ASCII whitespace characters. *)
Definition is_space (c : ascii) : bool :=
  let n := N_of_ascii c in
  ((9 <=? n) && (n <=? 13) || (n =? 32))%N.

(** Value of a hexadecimal digit, [None] for any other character. *)
Definition digit_value (c : ascii) : option N :=
  let n := N_of_ascii c in
  if ((48 <=? n) && (n <=? 57))%N then Some (n - 48)%N
  else if ((97 <=? n) && (n <=? 102))%N then Some (n - 87)%N
  else if ((65 <=? n) && (n <=? 70))%N then Some (n - 55)%N
  else None.

(** [bytes.fromhex(s)]: two hexadecimal digits per byte, ASCII whitespace
    skipped before a pair; [None] stands for [ValueError]. *)
Fixpoint fromhex (s : string) : option string :=
  match s with
  | EmptyString => Some EmptyString
  | String c s' =>
      if is_space c then fromhex s'
      else
        match digit_value c, s' with
        | Some top, String d s'' =>
            match digit_value d with
            | Some bot => String (ascii_of_N (16 * top + bot)) <$> fromhex s''
            | None => None
            end
        | _, _ => None
        end
  end.

Definition hex_digit (n : N) : ascii :=
  if (n <? 10)%N then ascii_of_N (48 + n) else ascii_of_N (87 + n).

(** [b.hex()] / [binascii.hexlify(b)]: two lower-case digits per byte. *)
Fixpoint hexlify (b : string) : string :=
  match b with
  | EmptyString => EmptyString
  | String c b' =>
      let n := N_of_ascii c in
      String (hex_digit (n / 16)) (String (hex_digit (n mod 16)) (hexlify b'))
  end.

(** [bson.ObjectId]: a wrapper around the identifier's bytes. *)
Inductive ObjectId : Type := Oid (binary : string).

Definition binary (o : ObjectId) : string := match o with Oid b => b end.

(** [ObjectId(s)] for a [str]: the string must have 24 characters and
    [bytes.fromhex] must accept it; [None] stands for
    [bson.errors.InvalidId]. *)
Definition parse (s : string) : option ObjectId :=
  if decide (String.length s = 24)
  then Oid <$> fromhex s
  else None.

(** [str(oid)]. *)
Definition to_str (o : ObjectId) : string := hexlify (binary o).

(** Identifiers generated by the store are 12 bytes long. *)
Definition generated (o : ObjectId) : Prop := String.length (binary o) = 12.

#[global] Instance ObjectId_eq_dec : EqDecision ObjectId.
Proof. solve_decision. Defined.

#[global] Instance generated_dec o : Decision (generated o).
Proof. unfold generated. apply _. Defined.

End Bson.

Abbreviation ObjectId := Bson.ObjectId.

(** ** Python values held by documents and models *)

(** [datetime.datetime]; [utc] tells an aware value in [timezone.utc] from a
    naive one. *)
Record datetime : Type := Datetime {
  year : nat; month : nat; day : nat;
  hour : nat; minute : nat; second : nat; microsecond : nat;
  utc : bool
}.

#[global] Instance datetime_eq_dec : EqDecision datetime.
Proof. solve_decision. Defined.

(** [str(dt)], that is [dt.isoformat(sep=' ')]. *)
Definition str_datetime (dt : datetime) : string :=
  PyStr.padded 4 (year dt) +:+ "-" +:+ PyStr.padded 2 (month dt) +:+ "-"
  +:+ PyStr.padded 2 (day dt) +:+ " " +:+ PyStr.padded 2 (hour dt) +:+ ":"
  +:+ PyStr.padded 2 (minute dt) +:+ ":" +:+ PyStr.padded 2 (second dt)
  +:+ (if decide (microsecond dt = 0) then ""
       else "." +:+ PyStr.padded 6 (microsecond dt))
  +:+ (if utc dt then "+00:00" else "").

Inductive Value : Type :=
  | VNone
  | VBool (b : bool)
  | VInt (n : Z)
  | VStr (s : string)
  | VObjectId (o : ObjectId)
  | VDatetime (t : datetime).

#[global] Instance Value_eq_dec : EqDecision Value.
Proof. solve_decision. Defined.

(** [str(v)]. *)
Definition py_str (v : Value) : string :=
  match v with
  | VNone => "None"
  | VBool true => "True"
  | VBool false => "False"
  | VInt n => PyStr.of_Z n
  | VStr s => s
  | VObjectId o => Bson.to_str o
  | VDatetime t => str_datetime t
  end.

(** [Optional[str]] and [Optional[int]] fields as values. *)
Definition of_opt_str (o : option string) : Value :=
  match o with Some s => VStr s | None => VNone end.

Definition of_opt_int (o : option Z) : Value :=
  match o with Some n => VInt n | None => VNone end.

(** ** Dictionaries

    A document, a filter and a JSON response body are Python [dict]s from
    field names to values. *)

Abbreviation dict := (gmap string Value).

(** [d.get(k)]. *)
Definition dict_get (d : dict) (k : string) : Value := default VNone (d !! k).

(** [d.get(k, dflt)]. *)
Definition dict_get_default (d : dict) (k : string) (dflt : Value) : Value :=
  default dflt (d !! k).

(** Truth value of a dict: non-empty. *)
Definition dict_truthy (d : dict) : bool := negb (bool_decide (d = ∅)).

(** Truth value of an [Optional[dict]], as tested by [if not x]. *)
Definition opt_dict_truthy (o : option dict) : bool :=
  match o with Some d => dict_truthy d | None => false end.

(** ** Exceptions

    The exceptions the program can meet; each is an instance of Python's
    [Exception], which is what [except Exception] catches. *)

Inductive Exception : Type :=
  | HTTPException (status_code : nat) (detail : string)
  | InvalidId                 (* bson.errors.InvalidId *)
  | KeyError (key : string)
  | TypeError
  | NotImplementedError
  | ValidationError           (* pydantic *)
  | StoreError (msg : string) (* raised by the driver or the database module *).

#[global] Instance Exception_eq_dec : EqDecision Exception.
Proof. solve_decision. Defined.

(** The error taxonomy of the API. *)
Definition ServiceUnavailable : Exception := HTTPException 500 "Database not configured".
Definition Unauthorized (detail : string) : Exception := HTTPException 401 detail.
Definition NotFound : Exception := HTTPException 404 "Lead not found".

(** The status of the response an exception leaves the handler with: an
    [HTTPException] carries its own, anything else is an internal server
    error. *)
Definition response_status (e : Exception) : nat :=
  match e with
  | HTTPException code _ => code
  | _ => 500
  end.

Inductive Result (A : Type) : Type :=
  | Ok (a : A)
  | Raise (e : Exception).

Arguments Ok {A} a.
Arguments Raise {A} e.

(** [d[k]]. *)
Definition dict_getitem (d : dict) (k : string) : Result Value :=
  match d !! k with
  | Some v => Ok v
  | None => Raise (KeyError k)
  end.

(** ** The monad of the handlers: a state and an exception *)

Definition M (S A : Type) : Type := S → Result A * S.

Definition ret {S A} (a : A) : M S A := λ s, (Ok a, s).

Definition raise {S A} (e : Exception) : M S A := λ s, (Raise e, s).

Definition bind {S A B} (m : M S A) (k : A → M S B) : M S B :=
  λ s, match m s with
       | (Ok a, s') => k a s'
       | (Raise e, s') => (Raise e, s')
       end.

(** [try: m except Exception: h]. *)
Definition try_except {S A} (m : M S A) (h : Exception → M S A) : M S A :=
  λ s, match m s with
       | (Ok a, s') => (Ok a, s')
       | (Raise e, s') => h e s'
       end.

(** A pure computation that may raise. *)
Definition lift {S A} (r : Result A) : M S A := λ s, (r, s).

Notation "'let*' x ':=' m 'in' k" := (bind m (λ x, k))
  (at level 10, x name, m at level 100, k at level 200).

(** ** The document store

    [main.py] reaches the store through the names it imports from the
    [database] module: the handle [db] (a driver database: [db[name]] is a
    collection, with [find_one]), and the helpers [create_document] and
    [get_documents].  The interface below is what the handlers use of them;
    every operation may raise and may change the store. *)

Class Database (DB : Type) : Type := {
  (** [bool(db)], the truth test of [if db]. *)
  db_bool : M DB bool;
  (** [db[name].find_one(filter)]. *)
  find_one : string → dict → M DB (option dict);
  (** [create_document(name, data)]; [fresh] is the identifier the store
      generates for the insertion. *)
  create_document : ObjectId → string → dict → M DB string;
  (** [get_documents(name, filter, limit=limit)]. *)
  get_documents : string → dict → nat → M DB (list dict);
}.

(** An in-memory store: each collection is the list of its documents in
    insertion order.  Its operations always succeed; a store that fails is
    another implementation of the interface. *)
Record Store : Type := {
  (** What [bool(db)] does for this handle. *)
  handle_truth : Result bool;
  collections : gmap string (list dict)
}.

Definition collection (st : Store) (name : string) : list dict :=
  default [] (collections st !! name).

(** A document matches an equality filter when it holds every field of the
    filter with the same value (the filters of this program hold strings
    and [ObjectId]s only). *)
Definition matches (flt doc : dict) : Prop := flt ⊆ doc.

Definition find (st : Store) (name : string) (flt : dict) : list dict :=
  filter (matches flt) (collection st name).

(** [db[name].find_one(flt)]: the first matching document. *)
Definition Store_find_one (name : string) (flt : dict) : M Store (option dict) :=
  λ st, (Ok (head (find st name flt)), st).

Definition insert_one (st : Store) (name : string) (doc : dict) : Store :=
  {| handle_truth := handle_truth st;
     collections := <[name := collection st name ++ [doc]]> (collections st) |}.

(** Modelled from the spec: [create_document] of the [database] module,
    which is not among the sources.  The spec's store adapter "exposes
    insert-one" over a store with "generated unique identifiers", and create
    "returns the newly generated identifier"; the scenario of its section 8
    passes that identifier back as a [lead_id], so it is returned as text. *)
Definition Store_create_document (fresh : ObjectId) (name : string) (data : dict)
  : M Store string :=
  λ st, (Ok (Bson.to_str fresh), insert_one st name (<["_id" := VObjectId fresh]> data)).

(** Modelled from the spec: [get_documents] of the [database] module, which
    is not among the sources.  The spec's store adapter "exposes find-many by
    filter", and list "returns up to 100 records" matching the filter, in
    the store's order. *)
Definition Store_get_documents (name : string) (flt : dict) (limit : nat)
  : M Store (list dict) :=
  λ st, (Ok (take limit (find st name flt)), st).

#[global] Instance Store_Database : Database Store := {
  db_bool := λ st, (handle_truth st, st);
  find_one := Store_find_one;
  create_document := Store_create_document;
  get_documents := Store_get_documents;
}.

(** The module-level variable [db] is [None] when the store is not
    configured: the state the handlers run in is an optional store. *)
Section Handle.
Context {DB : Type} `{Database DB}.

(** Runs a store operation on [db]; on [None], subscripting ([db[name]])
    raises [TypeError]. *)
Definition on_db {A} (op : M DB A) : M (option DB) A :=
  λ w, match w with
       | Some d => let '(r, d') := op d in (r, Some d')
       | None => (Raise TypeError, None)
       end.

(** [db is None]. *)
Definition db_is_None : M (option DB) bool :=
  λ w, (Ok (match w with None => true | Some _ => false end), w).

End Handle.

(** ** The schemas of [schemas.py] *)

(** The address validation behind pydantic's [EmailStr] (the
    [email_validator] package): the normalised address, or [None] for an
    address it rejects. *)
Class EmailValidator : Type := validate_email : string → option string.

Definition EmailStr `{EmailValidator} (s : string) : Result string :=
  match validate_email s with
  | Some normalised => Ok normalised
  | None => Raise ValidationError
  end.

(** [Optional[EmailStr]]. *)
Definition Optional_EmailStr `{EmailValidator} (o : option string) : Result (option string) :=
  match o with
  | None => Ok None
  | Some s =>
      match EmailStr s with
      | Ok normalised => Ok (Some normalised)
      | Raise e => Raise e
      end
  end.

(** A [str] field given a value read from a document: any other kind of
    value is a validation error. *)
Definition str_field (v : Value) : Result string :=
  match v with
  | VStr s => Ok s
  | _ => Raise ValidationError
  end.

Module Customer.

Record t : Type := make {
  name : string;
  email : string;
  password_hash : string;
  is_active : bool
}.

(** A stored document is a Customer record when it carries a store
    identifier and the fields of the schema, each of its type. *)
Definition is_record (d : dict) : Prop :=
  (∃ o, d !! "_id" = Some (VObjectId o)) ∧
  (∃ s, d !! "name" = Some (VStr s)) ∧
  (∃ s, d !! "email" = Some (VStr s)) ∧
  (∃ s, d !! "password_hash" = Some (VStr s)) ∧
  (∃ b, d !! "is_active" = Some (VBool b)).

End Customer.

Module Lead.

Record t : Type := make {
  customer_id : string;
  name : string;
  email : option string;
  phone : option string;
  source : option string;
  status : string;
  notes : option string
}.

Definition statuses : list string :=
  ["new"; "contacted"; "qualified"; "unqualified"; "follow_up"].

(** [Lead(customer_id=.., name=.., email=.., phone=.., source=..)]: [status]
    and [notes] take their defaults. *)
Definition new `{EmailValidator} (customer_id name : string)
    (email phone source : option string) : Result t :=
  match Optional_EmailStr email with
  | Ok email' => Ok (make customer_id name email' phone source "new" None)
  | Raise e => Raise e
  end.

(** The document of a model: one entry per field. *)
Definition model_dump (l : t) : dict :=
  <["customer_id" := VStr (customer_id l)]>
  (<["name" := VStr (name l)]>
  (<["email" := of_opt_str (email l)]>
  (<["phone" := of_opt_str (phone l)]>
  (<["source" := of_opt_str (source l)]>
  (<["status" := VStr (status l)]>
  (<["notes" := of_opt_str (notes l)]> ∅)))))).

End Lead.

Module Feedback.

Record t : Type := make {
  lead_id : string;
  customer_id : string;
  rating : option Z;
  disposition : string;
  comment : option string;
  submitted_at : option datetime
}.

Definition dispositions : list string :=
  ["qualified"; "unqualified"; "follow_up"; "wrong_number"; "no_response"].

(** [rating: Optional[int] = Field(None, ge=1, le=5)]. *)
Definition rating_ok (r : option Z) : bool :=
  match r with
  | None => true
  | Some n => bool_decide (1 ≤ n ≤ 5)%Z
  end.

(** [disposition: Literal[...]]. *)
Definition disposition_ok (d : string) : bool := bool_decide (d ∈ dispositions).

(** [Feedback(lead_id=.., customer_id=.., rating=.., disposition=..,
    comment=.., submitted_at=..)]. *)
Definition new (lead_id customer_id : string) (rating : option Z)
    (disposition : string) (comment : option string)
    (submitted_at : datetime) : Result t :=
  if rating_ok rating && disposition_ok disposition
  then Ok (make lead_id customer_id rating disposition comment (Some submitted_at))
  else Raise ValidationError.

Definition model_dump (f : t) : dict :=
  <["lead_id" := VStr (lead_id f)]>
  (<["customer_id" := VStr (customer_id f)]>
  (<["rating" := of_opt_int (rating f)]>
  (<["disposition" := VStr (disposition f)]>
  (<["comment" := of_opt_str (comment f)]>
  (<["submitted_at" := match submitted_at f with
                       | Some t => VDatetime t
                       | None => VNone
                       end]> ∅))))).

End Feedback.

(** Modelled from the spec: the [Admin] schema, which [main.py] imports from
    [schemas.py] but which is not in the file.  The spec gives an Admin
    record the fields "username, password_hash, role, is_active flag". *)
Module Admin.

Record t : Type := make {
  username : string;
  password_hash : string;
  role : string;
  is_active : bool
}.

Definition new (username password_hash role : string) (is_active : bool) : Result t :=
  Ok (make username password_hash role is_active).

Definition model_dump (a : t) : dict :=
  <["username" := VStr (username a)]>
  (<["password_hash" := VStr (password_hash a)]>
  (<["role" := VStr (role a)]>
  (<["is_active" := VBool (is_active a)]> ∅))).

End Admin.

(** ** The request and response models of [main.py] *)

Module LoginRequest.
Record t : Type := make { email : string; password : string }.
End LoginRequest.

Module LoginResponse.
Record t : Type := make { token : string; customer_id : string; name : string }.

(** [LoginResponse(token=.., customer_id=.., name=..)], [name] being read
    from a document. *)
Definition new (token customer_id : string) (name : Value) : Result t :=
  match str_field name with
  | Ok n => Ok (make token customer_id n)
  | Raise e => Raise e
  end.
End LoginResponse.

Module AdminLoginRequest.
Record t : Type := make { username : string; password : string }.
End AdminLoginRequest.

Module AdminLoginResponse.
Record t : Type := make {
  token : string; admin_id : string; username : string; role : string
}.

Definition new (token admin_id : string) (username : Value) (role : string) : Result t :=
  match str_field username with
  | Ok u => Ok (make token admin_id u role)
  | Raise e => Raise e
  end.
End AdminLoginResponse.

Module LeadCreate.
Record t : Type := make {
  name : string;
  email : option string;
  phone : option string;
  source : option string
}.
End LeadCreate.

Module FeedbackCreate.
Record t : Type := make {
  lead_id : string;
  rating : option Z;
  disposition : option string;
  comment : option string
}.
End FeedbackCreate.

(** ** The handlers of [main.py] *)

(** Truth value of an [Optional[str]]. *)
Definition opt_str_truthy (o : option string) : bool :=
  match o with Some s => PyStr.truthy s | None => false end.

(** [ObjectId(s)], raising [InvalidId]. *)
Definition ObjectId_of (s : string) : Result ObjectId :=
  match Bson.parse s with
  | Some o => Ok o
  | None => Raise InvalidId
  end.

(** [d["_id"] = str(d["_id"]) if "_id" in d else None]. *)
Definition stringify_id (d : dict) : dict :=
  <["_id" := match d !! "_id" with
             | Some v => VStr (py_str v)
             | None => VNone
             end]> d.

Section Handlers.
Context {DB : Type} `{Database DB} `{EmailValidator}.

(** The truth test [if db]: [None] is false, a handle answers for itself. *)
Definition db_truthy : M (option DB) bool :=
  λ w, match w with
       | None => (Ok false, None)
       | Some _ => on_db db_bool w
       end.

(** [db[name]] alone: the subscript that precedes the evaluation of the
    arguments of [db[name].find_one(...)]. *)
Definition db_getitem : M (option DB) unit := on_db (ret tt).

Definition get_customer_by_email (email : string) : M (option DB) (option dict) :=
  let* truth := db_truthy in
  if truth then on_db (find_one "customer" {["email" := VStr email]})
  else ret None.

Definition login (payload : LoginRequest.t) : M (option DB) LoginResponse.t :=
  let* none := db_is_None in
  if none then raise (HTTPException 500 "Database not configured") else
  let* found := get_customer_by_email (LoginRequest.email payload) in
  if negb (opt_dict_truthy found)
  then raise (HTTPException 401 "Invalid credentials") else
  let customer := default ∅ found in
  if bool_decide (VStr (LoginRequest.password payload) ≠ dict_get customer "password_hash")
  then raise (HTTPException 401 "Invalid credentials") else
  let token := py_str (dict_get customer "_id") in
  lift (LoginResponse.new token token (dict_get_default customer "name" (VStr "User"))).

Definition get_current_customer (authorization : option string) : M (option DB) dict :=
  let* none := db_is_None in
  if none then raise (HTTPException 500 "Database not configured") else
  if negb (opt_str_truthy authorization)
  then raise (HTTPException 401 "Missing token") else
  let token := PyStr.replace "Bearer " "" (default "" authorization) in
  let* oid := try_except (lift (ObjectId_of token))
                (λ _, raise (HTTPException 401 "Invalid token")) in
  let* customer := on_db (find_one "customer" {["_id" := VObjectId oid]}) in
  if negb (opt_dict_truthy customer)
  then raise (HTTPException 401 "Invalid token") else
  ret (default ∅ customer).

(** [fresh] is the identifier the store would generate for the insertion. *)
Definition ensure_default_admin (fresh : ObjectId) : M (option DB) unit :=
  try_except
    (let* none := db_is_None in
     if none then ret tt else
     let* existing := on_db (find_one "admin" {["username" := VStr "admin"]}) in
     if negb (opt_dict_truthy existing) then
       let* data := lift (Admin.new "admin" "admin" "admin" true) in
       let* _ := on_db (create_document fresh "admin" (Admin.model_dump data)) in
       ret tt
     else ret tt)
    (λ _, ret tt).

Definition startup_event (fresh : ObjectId) : M (option DB) unit :=
  ensure_default_admin fresh.

Definition admin_login (payload : AdminLoginRequest.t) : M (option DB) AdminLoginResponse.t :=
  let* none := db_is_None in
  if none then raise (HTTPException 500 "Database not configured") else
  let* found := on_db (find_one "admin"
                         {["username" := VStr (AdminLoginRequest.username payload)]}) in
  let admin := default ∅ found in
  if negb (opt_dict_truthy found)
     || bool_decide (VStr (AdminLoginRequest.password payload) ≠ dict_get admin "password_hash")
  then raise (HTTPException 401 "Invalid credentials") else
  let token := py_str (dict_get admin "_id") in
  lift (AdminLoginResponse.new token token
          (dict_get_default admin "username" (VStr "admin")) "admin").

Definition get_current_admin (authorization : option string) : M (option DB) dict :=
  let* none := db_is_None in
  if none then raise (HTTPException 500 "Database not configured") else
  if negb (opt_str_truthy authorization)
  then raise (HTTPException 401 "Missing token") else
  let token := PyStr.replace "Bearer " "" (default "" authorization) in
  let* oid := try_except (lift (ObjectId_of token))
                (λ _, raise (HTTPException 401 "Invalid token")) in
  let* admin := on_db (find_one "admin" {["_id" := VObjectId oid]}) in
  if negb (opt_dict_truthy admin)
  then raise (HTTPException 401 "Invalid token") else
  ret (default ∅ admin).

Definition create_lead (fresh : ObjectId) (payload : LeadCreate.t) (customer : dict)
  : M (option DB) dict :=
  let* id := lift (dict_getitem customer "_id") in
  let* data := lift (Lead.new (py_str id) (LeadCreate.name payload)
                       (LeadCreate.email payload) (LeadCreate.phone payload)
                       (LeadCreate.source payload)) in
  let* inserted_id := on_db (create_document fresh "lead" (Lead.model_dump data)) in
  ret ({["id" := VStr inserted_id]} : dict).

Definition list_leads (customer : dict) : M (option DB) (list dict) :=
  let* id := lift (dict_getitem customer "_id") in
  let* docs := on_db (get_documents "lead" {["customer_id" := VStr (py_str id)]} 100) in
  ret (stringify_id <$> docs).

(** The lookup both feedback handlers start with:
    [db["lead"].find_one({"_id": ObjectId(lead_id),
                          "customer_id": str(customer["_id"])})]. *)
Definition find_own_lead (lead_id : string) (customer : dict) : M (option DB) (option dict) :=
  let* _ := db_getitem in
  let* oid := lift (ObjectId_of lead_id) in
  let* id := lift (dict_getitem customer "_id") in
  on_db (find_one "lead"
           (<["_id" := VObjectId oid]> {["customer_id" := VStr (py_str id)]})).

(** [now] is what [datetime.now(timezone.utc)] returns. *)
Definition submit_feedback (fresh : ObjectId) (now : datetime)
    (payload : FeedbackCreate.t) (customer : dict) : M (option DB) dict :=
  let* lead := find_own_lead (FeedbackCreate.lead_id payload) customer in
  if negb (opt_dict_truthy lead)
  then raise (HTTPException 404 "Lead not found") else
  let* id := lift (dict_getitem customer "_id") in
  let* data := lift (Feedback.new (FeedbackCreate.lead_id payload) (py_str id)
                       (FeedbackCreate.rating payload)
                       (if opt_str_truthy (FeedbackCreate.disposition payload)
                        then default "" (FeedbackCreate.disposition payload)
                        else "follow_up")
                       (FeedbackCreate.comment payload) now) in
  let* inserted_id := on_db (create_document fresh "feedback" (Feedback.model_dump data)) in
  ret ({["id" := VStr inserted_id]} : dict).

Definition get_feedback_for_lead (lead_id : string) (customer : dict)
  : M (option DB) (list dict) :=
  let* lead := find_own_lead lead_id customer in
  if negb (opt_dict_truthy lead)
  then raise (HTTPException 404 "Lead not found") else
  let* id := lift (dict_getitem customer "_id") in
  let* docs := on_db (get_documents "feedback"
                        (<["lead_id" := VStr lead_id]>
                           {["customer_id" := VStr (py_str id)]}) 200) in
  ret (stringify_id <$> docs).

(** *** The routes: a handler behind its [Depends(get_current_customer)] *)

Definition POST_leads (fresh : ObjectId) (authorization : option string)
    (payload : LeadCreate.t) : M (option DB) dict :=
  let* customer := get_current_customer authorization in
  create_lead fresh payload customer.

Definition GET_leads (authorization : option string) : M (option DB) (list dict) :=
  let* customer := get_current_customer authorization in
  list_leads customer.

Definition POST_feedback (fresh : ObjectId) (now : datetime)
    (authorization : option string) (payload : FeedbackCreate.t) : M (option DB) dict :=
  let* customer := get_current_customer authorization in
  submit_feedback fresh now payload customer.

Definition GET_feedback (authorization : option string) (lead_id : string)
  : M (option DB) (list dict) :=
  let* customer := get_current_customer authorization in
  get_feedback_for_lead lead_id customer.

End Handlers.

(** ** Well-formed stores *)

(** The store's index on [_id]: no two documents of a collection carry the
    same identifier. *)
Definition unique_ids (docs : list dict) : Prop :=
  NoDup ((λ d : dict, d !! "_id") <$> docs).

(** The spec's "email (unique login identity)": no two customers share an
    email. *)
Definition unique_emails (docs : list dict) : Prop :=
  NoDup ((λ d : dict, d !! "email") <$> docs).

(** Number of documents of a collection that match a filter. *)
Definition count (st : Store) (name : string) (flt : dict) : nat :=
  length (find st name flt).

(** ** Names for what the handlers build *)

(** The documents [create_lead] and [submit_feedback] hand to the store,
    with the identifier the store gives them. *)
Definition lead_document (fresh : ObjectId) (data : Lead.t) : dict :=
  <["_id" := VObjectId fresh]> (Lead.model_dump data).

Definition feedback_document (fresh : ObjectId) (data : Feedback.t) : dict :=
  <["_id" := VObjectId fresh]> (Feedback.model_dump data).

Definition created (fresh : ObjectId) : dict := {["id" := VStr (Bson.to_str fresh)]}.

(** The filter of the ownership check. *)
Definition own_lead_filter (oid : ObjectId) (id : Value) : dict :=
  <["_id" := VObjectId oid]> {["customer_id" := VStr (py_str id)]}.


(** The disposition [submit_feedback] passes to the schema:
    [payload.disposition or "follow_up"]. *)
Definition disposition_or_default (o : option string) : string :=
  if opt_str_truthy o then default "" o else "follow_up".

(** No stored lead carries both the identifier and the owner. *)
Definition no_own_lead (st : Store) (oid : ObjectId) (id : ObjectId) : Prop :=
  ∀ lead, lead ∈ collection st "lead" →
    ¬ (lead !! "_id" = Some (VObjectId oid) ∧
       lead !! "customer_id" = Some (VStr (Bson.to_str id))).

(** The document [ensure_default_admin] hands to the store, with the
    identifier the store gives it. *)
Definition admin_document (fresh : ObjectId) : dict :=
  <["_id" := VObjectId fresh]> (Admin.model_dump (Admin.make "admin" "admin" "admin" true)).

(** The filter [ensure_default_admin] looks the default admin up with. *)
Definition default_admin : dict := {["username" := VStr "admin"]}.

(** Two documents that differ at most in their [is_active] field. *)
Definition same_but_is_active (d1 d2 : dict) : Prop :=
  delete "is_active" d1 = delete "is_active" d2.

(** Two stores that differ at most in the [is_active] of their customers. *)
Definition same_but_customers_is_active (st1 st2 : Store) : Prop :=
  handle_truth st1 = handle_truth st2 ∧
  Forall2 same_but_is_active (collection st1 "customer") (collection st2 "customer") ∧
  ∀ name, name ≠ "customer" → collection st1 name = collection st2 name.

(** Two outcomes agree when they raise the same exception or return related
    values. *)
Definition agree {A} (R : A → A → Prop) (r1 r2 : Result A) : Prop :=
  match r1, r2 with
  | Ok a1, Ok a2 => R a1 a2
  | Raise e1, Raise e2 => e1 = e2
  | _, _ => False
  end.

Definition worlds_agree (w1 w2 : option Store) : Prop :=
  match w1, w2 with
  | Some st1, Some st2 => same_but_customers_is_active st1 st2
  | None, None => True
  | _, _ => False
  end.

(** The states a sequence of startups leaves, one generated identifier per
    run. *)
Definition run_startups (ids : list ObjectId) (w : option Store) : option Store :=
  foldl (λ w id, snd (startup_event id w)) w ids.

(** Number of documents of a collection of the optional store that match a
    filter. *)
Definition world_count (w : option Store) (name : string) (flt : dict) : nat :=
  match w with
  | Some st => count st name flt
  | None => 0
  end.

(** ** Example data *)

Module Example.

Definition alice_id : ObjectId := Bson.Oid "aaaaaaaaaaaa".
Definition bob_id : ObjectId := Bson.Oid "bbbbbbbbbbbb".
Definition lead_id : ObjectId := Bson.Oid "llllllllllll".
Definition feedback_id : ObjectId := Bson.Oid "ffffffffffff".
Definition admin_id : ObjectId := Bson.Oid "rrrrrrrrrrrr".

Definition customer (id : ObjectId) (name email password : string) (active : bool) : dict :=
  <["_id" := VObjectId id]>
  (<["name" := VStr name]>
  (<["email" := VStr email]>
  (<["password_hash" := VStr password]>
  (<["is_active" := VBool active]> ∅)))).

Definition alice : dict := customer alice_id "Alice" "a@x.com" "pw1" true.
Definition bob : dict := customer bob_id "Bob" "b@x.com" "pw2" true.

(** A configured store holding the two customers. *)
Definition store : Store :=
  {| handle_truth := Ok true;
     collections := {["customer" := [alice; bob]]} |}.

(** An address validator that only asks for an at sign. *)
Definition at_sign : EmailValidator :=
  λ s, if PyStr.has_char "@" s then Some s else None.

Definition alice_header : option string := Some ("Bearer " +:+ Bson.to_str alice_id).
Definition bob_header : option string := Some ("Bearer " +:+ Bson.to_str bob_id).

(** The lead Alice creates with the name Jane, and the store that holds it. *)
Definition jane : dict :=
  lead_document lead_id (Lead.make (Bson.to_str alice_id) "Jane" None None None "new" None).

Definition store_with_lead : Store := insert_one store "lead" jane.

(** The same customers behind a handle whose truth test raises, as
    [bool()] of a driver database that only supports [is None]. *)
Definition store_untestable : Store :=
  {| handle_truth := Raise NotImplementedError;
     collections := {["customer" := [alice; bob]]} |}.

(** The same store, Bob's account being inactive. *)
Definition store_bob_inactive : Store :=
  {| handle_truth := Ok true;
     collections := {["customer" := [alice; customer bob_id "Bob" "b@x.com" "pw2" false]]} |}.

(** A store that cannot be reached: every operation raises. *)
Definition unreachable : Database unit := {|
  db_bool := raise (StoreError "unreachable");
  find_one := λ _ _, raise (StoreError "unreachable");
  create_document := λ _ _ _, raise (StoreError "unreachable");
  get_documents := λ _ _ _, raise (StoreError "unreachable");
|}.

(** A store that answers lookups but refuses insertions. *)
Definition read_only : Database unit := {|
  db_bool := ret true;
  find_one := λ _ _, ret None;
  create_document := λ _ _ _, raise (StoreError "read only");
  get_documents := λ _ _ _, ret [];
|}.

Definition noon : datetime := Datetime 2024 5 17 12 0 0 0 true.

End Example.

(** ** Proof automation *)

Ltac unfold_monad :=
  unfold bind, try_except, lift, raise, ret, on_db, db_is_None, db_getitem, dict_getitem.

(** ** The diagnostic route [GET /test] *)



(** Text outside ASCII.  A Python [str] is a sequence of code points; a
    text that leaves ASCII is written here as its UTF-8 encoding, in which
    a code point is one leading byte followed by its continuation bytes
    (the bytes [10xxxxxx]).  Length and slices count code points, as
    [len(s)] and [s[:n]] do. *)
Module Utf8.

Definition is_continuation (c : ascii) : bool :=
  match c with
  | Ascii _ _ _ _ _ _ b6 b7 => b7 && negb b6
  end.

(** [len(s)]. *)
Fixpoint len (s : string) : nat :=
  match s with
  | EmptyString => 0
  | String c s' => (if is_continuation c then 0 else 1) + len s'
  end.


End Utf8.

(** The values of the response of [test_database]. *)
Inductive TestValue : Type :=
  | TNone
  | TStr (s : string)
  | TList (names : list string).

#[global] Instance TestValue_eq_dec : EqDecision TestValue.
Proof. solve_decision. Defined.


(** ** The routes as a whole

    The requests the application serves: the startup hook and one
    constructor per route of [main.py] that reaches the store, each with the
    identifier and the time the environment would supply. *)
Inductive Request : Type :=
  | Startup (fresh : ObjectId)
  | PostAuthLogin (payload : LoginRequest.t)
  | PostAdminLogin (payload : AdminLoginRequest.t)
  | PostLeads (fresh : ObjectId) (authorization : option string) (payload : LeadCreate.t)
  | GetLeads (authorization : option string)
  | PostFeedback (fresh : ObjectId) (now : datetime) (authorization : option string)
      (payload : FeedbackCreate.t)
  | GetFeedback (authorization : option string) (lead_id : string).

(** The store a request leaves. *)
Definition serve `{EmailValidator} (w : option Store) (r : Request) : option Store :=
  match r with
  | Startup fresh => snd (startup_event fresh w)
  | PostAuthLogin payload => snd (login payload w)
  | PostAdminLogin payload => snd (admin_login payload w)
  | PostLeads fresh authorization payload => snd (POST_leads fresh authorization payload w)
  | GetLeads authorization => snd (GET_leads authorization w)
  | PostFeedback fresh now authorization payload =>
      snd (POST_feedback fresh now authorization payload w)
  | GetFeedback authorization lead_id => snd (GET_feedback authorization lead_id w)
  end.

(** The store a sequence of requests leaves. *)
Definition serve_all `{EmailValidator} (w : option Store) (rs : list Request) : option Store :=
  foldl serve w rs.

(** No two admins share a username. *)
Definition unique_usernames (docs : list dict) : Prop :=
  NoDup ((λ d : dict, d !! "username") <$> docs).

(** The filter [get_feedback_for_lead] lists the feedback with. *)
Definition feedback_filter (lead_id : string) (id : Value) : dict :=
  <["lead_id" := VStr lead_id]> {["customer_id" := VStr (py_str id)]}.

(** ** More example data *)

Module Sample.

(** An admin record with a password of its own. *)
Definition root : dict :=
  <["_id" := VObjectId Example.admin_id]>
  (Admin.model_dump (Admin.make "root" "s3cret" "admin" true)).

Definition store_with_root : Store := insert_one Example.store "admin" root.

(** The identifier of Jane's lead, spelled in upper case. *)
Definition lead_id_upper : string := "6C6C6C6C6C6C6C6C6C6C6C6C".

(** A customer record without a name, and one without a password_hash. *)
Definition nameless : dict :=
  <["_id" := VObjectId Example.lead_id]>
  (<["email" := VStr "n@x.com"]> (<["password_hash" := VStr "pw3"]> ∅)).

Definition passwordless : dict :=
  <["_id" := VObjectId (Bson.Oid "pppppppppppp")]>
  (<["name" := VStr "Pat"]> (<["email" := VStr "p@x.com"]> ∅)).

Definition store_incomplete : Store :=
  {| handle_truth := Ok true;
     collections := {["customer" := [nameless; passwordless]]} |}.

(** The same records behind a handle whose truth test raises. *)
Definition store_incomplete_untestable : Store :=
  {| handle_truth := Raise NotImplementedError;
     collections := {["customer" := [nameless; passwordless]]} |}.

(** A store in which Alice already has a hundred leads, numbered from 0. *)
Definition numbered (n : nat) : dict :=
  lead_document (Bson.Oid (PyStr.padded 12 n))
    (Lead.make (Bson.to_str Example.alice_id) "Jane" None None None "new" None).

Definition crowded : Store :=
  {| handle_truth := Ok true;
     collections := <["lead" := numbered <$> seq 0 100]> (collections Example.store) |}.

(** A lead of Bob's, feedback of Alice's on her lead Jane, and the store
    that holds them beside Jane. *)
Definition bob_lead_id : ObjectId := Bson.Oid "mmmmmmmmmmmm".

Definition joe : dict :=
  lead_document bob_lead_id
    (Lead.make (Bson.to_str Example.bob_id) "Joe" None None None "new" None).

Definition praise : dict :=
  feedback_document Example.feedback_id
    (Feedback.make (Bson.to_str Example.lead_id) (Bson.to_str Example.alice_id)
       (Some 5%Z) "qualified" None (Some Example.noon)).

Definition store_with_feedback : Store :=
  insert_one (insert_one Example.store_with_lead "lead" joe) "feedback" praise.

(** The feedback Bob submits on his lead. *)
Definition complaint_id : ObjectId := Bson.Oid "gggggggggggg".

Definition complaint : dict :=
  feedback_document complaint_id
    (Feedback.make (Bson.to_str bob_lead_id) (Bson.to_str Example.bob_id)
       (Some 1%Z) "follow_up" None (Some Example.noon)).




End Sample.

(** ** A store behind another handle *)

(** The same collections behind a handle whose truth test does [truth]. *)
Definition with_truth (truth : Result bool) (st : Store) : Store :=
  {| handle_truth := truth; collections := collections st |}.

(** * Properties *)

(** ** Facts about [str.replace] *)

Module PyStrFacts.
Import PyStr.

Lemma prefix_app (old rest : string) : String.prefix old (old +:+ rest) = true.
Proof.
  induction old as [|a old IH]; simpl.
  - by destruct rest.
  - destruct (ascii_dec a a); [exact IH | congruence].
Qed.

Lemma replace_from_skip (old new u rest : string) :
  replace_from old new (String.length u) (u +:+ rest) = replace_from old new 0 rest.
Proof. induction u as [|c u IH]; simpl; [done | exact IH]. Qed.

(** An occurrence at the front is replaced, and the scan resumes after it. *)
Lemma replace_occurrence (a : ascii) (old' new rest : string) :
  replace (String a old') new (String a old' +:+ rest)
  = new +:+ replace (String a old') new rest.
Proof.
  unfold replace.
  change (String a old' +:+ rest) with (String a (old' +:+ rest)).
  cbn [replace_from].
  change (String a (old' +:+ rest)) with (String a old' +:+ rest).
  rewrite prefix_app. cbn [String.length]. rewrite Nat.sub_1_r. cbn [Nat.pred].
  by rewrite replace_from_skip.
Qed.

(** A character that starts no occurrence is kept. *)
Lemma replace_other (old new : string) (c : ascii) (s : string) :
  String.prefix old (String c s) = false →
  replace old new (String c s) = String c (replace old new s).
Proof. unfold replace. intros Hp. cbn [replace_from]. by rewrite Hp. Qed.

Lemma replace_absent (a : ascii) (old' new s : string) :
  has_char a s = false → replace (String a old') new s = s.
Proof.
  induction s as [|c s IH]; [done|].
  cbn [has_char]. case_decide as Hc; [done|]. intros Hs.
  rewrite replace_other.
  - by rewrite IH.
  - simpl. by destruct (ascii_dec a c).
Qed.

Lemma replace_prefixed (a : ascii) (old' s : string) (n : nat) :
  has_char a s = false →
  replace (String a old') "" (prefixed (String a old') n s) = s.
Proof.
  intros Hs. induction n as [|n IH]; cbn [prefixed].
  - by apply replace_absent.
  - by rewrite replace_occurrence.
Qed.

End PyStrFacts.

(** ** Facts about [ObjectId] *)

Module BsonFacts.
Import Bson.

Lemma byte_digits (c : ascii) :
  let n := N_of_ascii c in
  is_space (hex_digit (n / 16)) = false ∧
  digit_value (hex_digit (n / 16)) = Some (n / 16)%N ∧
  digit_value (hex_digit (n mod 16)) = Some (n mod 16)%N ∧
  ascii_of_N (16 * (n / 16) + n mod 16) = c ∧
  hex_digit (n / 16) ≠ "B"%char ∧ hex_digit (n mod 16) ≠ "B"%char.
Proof.
  destruct c as [[] [] [] [] [] [] [] []]; vm_compute; repeat split; congruence.
Qed.

(** [bytes.fromhex(b.hex()) == b]. *)
Lemma fromhex_hexlify (b : string) : fromhex (hexlify b) = Some b.
Proof.
  induction b as [|c b IH]; [done|].
  destruct (byte_digits c) as (Hs & Hhi & Hlo & Hc & _).
  cbn [hexlify fromhex]. cbv zeta in *. rewrite Hs, Hhi, Hlo, IH. simpl. by rewrite Hc.
Qed.

Lemma length_hexlify (b : string) : String.length (hexlify b) = 2 * String.length b.
Proof. induction b as [|c b IH]; simpl; [done | lia]. Qed.

Lemma hexlify_no_B (b : string) : PyStr.has_char "B" (hexlify b) = false.
Proof.
  induction b as [|c b IH]; [done|].
  destruct (byte_digits c) as (_ & _ & _ & _ & Hhi & Hlo).
  cbn [hexlify PyStr.has_char]. cbv zeta in *.
  repeat case_decide; congruence.
Qed.

(** [ObjectId(str(o)) == o] for a generated identifier. *)
Lemma parse_to_str (o : ObjectId) : generated o → parse (to_str o) = Some o.
Proof.
  destruct o as [b]. unfold generated, parse, to_str. simpl. intros Hlen.
  rewrite length_hexlify, Hlen. simpl. by rewrite fromhex_hexlify.
Qed.

Lemma to_str_inj (o1 o2 : ObjectId) : to_str o1 = to_str o2 → o1 = o2.
Proof.
  destruct o1 as [b1], o2 as [b2]. unfold to_str. simpl. intros Heq.
  assert (Some b1 = Some b2) as [= ->]; [|done].
  by rewrite <- !fromhex_hexlify, Heq.
Qed.

Lemma to_str_nonempty (o : ObjectId) : generated o → PyStr.truthy (to_str o) = true.
Proof.
  destruct o as [[|c b]]; unfold generated; simpl; [lia | done].
Qed.

End BsonFacts.

(** ** Facts about the in-memory store *)

Section StoreFacts.
Implicit Types (st : Store) (flt d : dict) (docs : list dict).

Lemma matches_singleton (k : string) (v : Value) d :
  matches {[k := v]} d ↔ d !! k = Some v.
Proof. unfold matches. apply map_singleton_subseteq_l. Qed.

Lemma matches_lookup flt d (k : string) (v : Value) :
  matches flt d → flt !! k = Some v → d !! k = Some v.
Proof. unfold matches. intros Hsub Hk. by eapply lookup_weaken. Qed.

Lemma matches_insert (k : string) (v : Value) flt d :
  matches (<[k := v]> flt) d → d !! k = Some v.
Proof. intros Hm. eapply matches_lookup; [done | apply lookup_insert_eq]. Qed.

Lemma dict_truthy_lookup d (k : string) (v : Value) :
  d !! k = Some v → dict_truthy d = true.
Proof.
  intros Hk. unfold dict_truthy. rewrite bool_decide_eq_false_2; [done|].
  intros ->. by rewrite lookup_empty in Hk.
Qed.

Lemma find_head st (name : string) flt d :
  head (find st name flt) = Some d → d ∈ collection st name ∧ matches flt d.
Proof.
  intros Hh. apply head_Some_elem_of in Hh.
  apply list_elem_of_filter in Hh. tauto.
Qed.

Lemma find_head_None st (name : string) flt d :
  head (find st name flt) = None → d ∈ collection st name → ¬ matches flt d.
Proof.
  intros Hh Hd Hm. apply head_None in Hh. unfold find in Hh.
  by apply (filter_nil_not_elem_of _ _ d Hh Hm).
Qed.

(** Under a uniqueness constraint on a field, the document found by that
    field is the one that carries the value. *)
Lemma find_by_key st (name key : string) (v : Value) d :
  NoDup ((λ d : dict, d !! key) <$> collection st name) →
  d ∈ collection st name → d !! key = Some v →
  head (find st name {[key := v]}) = Some d.
Proof.
  intros Huniq Hd Hk.
  destruct (head (find st name {[key := v]})) as [d'|] eqn:Hh.
  - apply find_head in Hh as [Hd' Hm]. apply matches_singleton in Hm.
    apply list_elem_of_lookup in Hd as [i Hi]. apply list_elem_of_lookup in Hd' as [j Hj].
    assert (i = j) as ->; [|congruence].
    eapply (NoDup_lookup _ _ _ (Some v) Huniq); rewrite list_lookup_fmap.
    + by rewrite Hi; simpl; rewrite Hk.
    + by rewrite Hj; simpl; rewrite Hm.
  - exfalso. eapply find_head_None; eauto. by apply matches_singleton.
Qed.

Lemma find_by_id st (name : string) (v : Value) d :
  unique_ids (collection st name) →
  d ∈ collection st name → d !! "_id" = Some v →
  head (find st name {["_id" := v]}) = Some d.
Proof. apply find_by_key. Qed.

End StoreFacts.

(** ** Token resolution on the in-memory store *)

(** [get_current_customer], evaluated. *)
Lemma get_current_customer_eval (st : Store) (authorization : option string) :
  get_current_customer authorization (Some st) =
  (if opt_str_truthy authorization then
     match Bson.parse (PyStr.replace "Bearer " "" (default "" authorization)) with
     | Some oid =>
         match head (find st "customer" {["_id" := VObjectId oid]}) with
         | Some customer => Ok customer
         | None => Raise (Unauthorized "Invalid token")
         end
     | None => Raise (Unauthorized "Invalid token")
     end
   else Raise (Unauthorized "Missing token"), Some st).
Proof.
  unfold get_current_customer, bind, db_is_None, try_except, lift, raise, ret, ObjectId_of.
  destruct (opt_str_truthy authorization); [|done]. simpl.
  destruct (Bson.parse _) as [oid|]; [|done]. simpl.
  destruct (head _) as [c|] eqn:Hh; [|done]. simpl.
  apply find_head in Hh as [_ Hm]. apply matches_singleton in Hm.
  by rewrite (dict_truthy_lookup _ _ _ Hm).
Qed.

Lemma get_current_admin_eval (st : Store) (authorization : option string) :
  get_current_admin authorization (Some st) =
  (if opt_str_truthy authorization then
     match Bson.parse (PyStr.replace "Bearer " "" (default "" authorization)) with
     | Some oid =>
         match head (find st "admin" {["_id" := VObjectId oid]}) with
         | Some admin => Ok admin
         | None => Raise (Unauthorized "Invalid token")
         end
     | None => Raise (Unauthorized "Invalid token")
     end
   else Raise (Unauthorized "Missing token"), Some st).
Proof.
  unfold get_current_admin, bind, db_is_None, try_except, lift, raise, ret, ObjectId_of.
  destruct (opt_str_truthy authorization); [|done]. simpl.
  destruct (Bson.parse _) as [oid|]; [|done]. simpl.
  destruct (head _) as [c|] eqn:Hh; [|done]. simpl.
  apply find_head in Hh as [_ Hm]. apply matches_singleton in Hm.
  by rewrite (dict_truthy_lookup _ _ _ Hm).
Qed.

(** A resolved customer is a stored document that carries the identifier
    the token denotes. *)
Lemma get_current_customer_Ok (st : Store) (authorization : option string)
    (customer : dict) (w : option Store) :
  get_current_customer authorization (Some st) = (Ok customer, w) →
  w = Some st ∧ customer ∈ collection st "customer" ∧
  ∃ oid, Bson.parse (PyStr.replace "Bearer " "" (default "" authorization)) = Some oid
         ∧ customer !! "_id" = Some (VObjectId oid).
Proof.
  rewrite get_current_customer_eval.
  destruct (opt_str_truthy authorization); [|by intros [=]].
  destruct (Bson.parse _) as [oid|]; [|by intros [=]].
  destruct (head _) as [c|] eqn:Hh; [|by intros [=]].
  intros [= -> <-]. apply find_head in Hh as [Hc Hm]. apply matches_singleton in Hm.
  eauto.
Qed.

(** The header is cut down to its token before anything else looks at it:
    whatever the store, two headers with the same token resolve alike. *)
Lemma get_current_customer_token {DB} `{Database DB} (a1 a2 : string) (w : option DB) :
  PyStr.truthy a1 = PyStr.truthy a2 →
  PyStr.replace "Bearer " "" a1 = PyStr.replace "Bearer " "" a2 →
  get_current_customer (Some a1) w = get_current_customer (Some a2) w.
Proof.
  intros Ht Hr. unfold get_current_customer. simpl. by rewrite Ht, Hr.
Qed.

Lemma get_current_admin_token {DB} `{Database DB} (a1 a2 : string) (w : option DB) :
  PyStr.truthy a1 = PyStr.truthy a2 →
  PyStr.replace "Bearer " "" a1 = PyStr.replace "Bearer " "" a2 →
  get_current_admin (Some a1) w = get_current_admin (Some a2) w.
Proof.
  intros Ht Hr. unfold get_current_admin. simpl. by rewrite Ht, Hr.
Qed.

Lemma prefixed_truthy (n : nat) (s : string) :
  PyStr.truthy s = true → PyStr.truthy (PyStr.prefixed "Bearer " n s) = true.
Proof. destruct n; simpl; done. Qed.

Lemma token_of_prefixed (n : nat) (oid : ObjectId) :
  PyStr.replace "Bearer " "" (PyStr.prefixed "Bearer " n (Bson.to_str oid)) = Bson.to_str oid.
Proof. apply PyStrFacts.replace_prefixed, BsonFacts.hexlify_no_B. Qed.

(** A failure of the store during the lookup is not handled: it leaves the
    dependency as it was raised. *)
Lemma get_current_customer_store_failure {DB} `{Database DB}
    (authorization : option string) (oid : ObjectId) (d d' : DB) (e : Exception) :
  opt_str_truthy authorization = true →
  Bson.parse (PyStr.replace "Bearer " "" (default "" authorization)) = Some oid →
  find_one "customer" {["_id" := VObjectId oid]} d = (Raise e, d') →
  get_current_customer authorization (Some d) = (Raise e, Some d').
Proof.
  intros Ht Hp Hf.
  unfold get_current_customer, bind, db_is_None, try_except, lift, raise, ret, ObjectId_of, on_db.
  rewrite Ht, Hp. simpl. by rewrite Hf.
Qed.


Lemma example_customers_unique : unique_ids (collection Example.store "customer").
Proof. unfold unique_ids. compute_done. Defined.



(** C9: the prefix of the Authorization header is not required.  Token
    resolution drops each occurrence of the prefix that its scan of the
    header meets; so, for an identifier generated by the store, the bare
    identifier string, and the identifier behind any number of repetitions
    of the prefix, resolve as the well-formed header does, for customers and
    for admins and whatever the store; on the in-memory store they resolve
    to the customer record that carries the identifier. *)
Theorem bearer_prefix_not_required {DB} `{Database DB}
    (w : option DB) (st : Store) (oid : ObjectId) (n : nat) :
  Bson.generated oid →
  let header := PyStr.prefixed "Bearer " n (Bson.to_str oid) in
  let well_formed := "Bearer " +:+ Bson.to_str oid in
  (∀ rest, PyStr.replace "Bearer " "" ("Bearer " +:+ rest)
           = PyStr.replace "Bearer " "" rest) ∧
  PyStr.replace "Bearer " "" header = Bson.to_str oid ∧
  get_current_customer (Some header) w = get_current_customer (Some well_formed) w ∧
  get_current_admin (Some header) w = get_current_admin (Some well_formed) w ∧
  (∀ c, unique_ids (collection st "customer") →
     c ∈ collection st "customer" → c !! "_id" = Some (VObjectId oid) →
     get_current_customer (Some header) (Some st) = (Ok c, Some st)).
Proof.
  intros Hgen header well_formed.
  assert (PyStr.truthy header = PyStr.truthy well_formed) as Ht.
  { unfold header. by rewrite prefixed_truthy; [|apply BsonFacts.to_str_nonempty]. }
  assert (PyStr.replace "Bearer " "" header = PyStr.replace "Bearer " "" well_formed) as Hr.
  { unfold header. rewrite token_of_prefixed. symmetry. apply (token_of_prefixed 1). }
  split; [intros rest; apply (PyStrFacts.replace_occurrence "B" "earer " "" rest)|].
  split; [apply token_of_prefixed|].
  split; [by apply get_current_customer_token|].
  split; [by apply get_current_admin_token|].
  intros c Huniq Hc Hid. rewrite get_current_customer_eval. simpl.
  unfold header at 1. rewrite prefixed_truthy; [|by apply BsonFacts.to_str_nonempty].
  unfold header. rewrite token_of_prefixed, BsonFacts.parse_to_str by done.
  by rewrite (find_by_id st "customer" _ c).
Qed.

Lemma bearer_prefix_not_required_witness :
  get_current_customer (Some (Bson.to_str Example.alice_id)) (Some Example.store)
    = (Ok Example.alice, Some Example.store) ∧
  get_current_customer (Some ("Bearer Bearer " +:+ Bson.to_str Example.alice_id))
    (Some Example.store)
    = get_current_customer (Some ("Bearer " +:+ Bson.to_str Example.alice_id))
        (Some Example.store).
Proof.
  assert (Bson.generated Example.alice_id) as Hgen by reflexivity.
  split.
  - destruct (bearer_prefix_not_required (Some Example.store) Example.store
                Example.alice_id 0 Hgen) as (_ & _ & _ & _ & Hres).
    apply (Hres Example.alice).
    + exact example_customers_unique.
    + compute_done.
    + reflexivity.
  - destruct (bearer_prefix_not_required (Some Example.store) Example.store
                Example.alice_id 2 Hgen) as (_ & _ & Hsame & _).
    exact Hsame.
Defined.

(** ** Customer login *)

(** [login], evaluated on a configured store. *)
Lemma login_eval (st : Store) (payload : LoginRequest.t) :
  login payload (Some st) =
  (match handle_truth st with
   | Ok true =>
       match head (find st "customer" {["email" := VStr (LoginRequest.email payload)]}) with
       | Some customer =>
           if decide (VStr (LoginRequest.password payload) = dict_get customer "password_hash")
           then
             let token := py_str (dict_get customer "_id") in
             LoginResponse.new token token (dict_get_default customer "name" (VStr "User"))
           else Raise (Unauthorized "Invalid credentials")
       | None => Raise (Unauthorized "Invalid credentials")
       end
   | Ok false => Raise (Unauthorized "Invalid credentials")
   | Raise e => Raise e
   end, Some st).
Proof.
  unfold login, get_customer_by_email, db_truthy, on_db, bind, db_is_None, lift, raise, ret.
  simpl. destruct (handle_truth st) as [[]|e]; [|done..]. simpl.
  destruct (head _) as [c|] eqn:Hh; [|done]. simpl.
  apply find_head in Hh as [_ Hm]. apply matches_singleton in Hm.
  rewrite (dict_truthy_lookup _ _ _ Hm). simpl.
  case_decide; [by rewrite bool_decide_eq_false_2 by tauto|].
  by rewrite bool_decide_eq_true_2.
Qed.

(** When the truth test of the handle itself raises, [login] raises with it
    whatever the credentials. *)
Lemma login_handle_raises (st : Store) (payload : LoginRequest.t) (e : Exception) :
  handle_truth st = Raise e → login payload (Some st) = (Raise e, Some st).
Proof. intros He. by rewrite login_eval, He. Qed.

(** Customer login on a configured store whose handle tests true, with
    emails unique among customers.  For a stored Customer record, its email
    and a password equal to its stored password_hash return its stringified
    identifier as token and as customer_id, and its name; an email that no
    record carries, and a password other than the stored password_hash of
    the record that carries the email, fail with Unauthorized. *)
Lemma login_correct (st : Store) (payload : LoginRequest.t) :
  handle_truth st = Ok true →
  unique_emails (collection st "customer") →
  (∀ c, c ∈ collection st "customer" → Customer.is_record c →
     c !! "email" = Some (VStr (LoginRequest.email payload)) →
     c !! "password_hash" = Some (VStr (LoginRequest.password payload)) →
     ∃ oid name,
       c !! "_id" = Some (VObjectId oid) ∧ c !! "name" = Some (VStr name) ∧
       login payload (Some st)
       = (Ok (LoginResponse.make (Bson.to_str oid) (Bson.to_str oid) name), Some st)) ∧
  ((∀ c, c ∈ collection st "customer" →
      c !! "email" ≠ Some (VStr (LoginRequest.email payload))) →
   login payload (Some st) = (Raise (Unauthorized "Invalid credentials"), Some st)) ∧
  (∀ c, c ∈ collection st "customer" →
     c !! "email" = Some (VStr (LoginRequest.email payload)) →
     c !! "password_hash" ≠ Some (VStr (LoginRequest.password payload)) →
     login payload (Some st) = (Raise (Unauthorized "Invalid credentials"), Some st)).
Proof.
  intros Htruth Huniq. rewrite login_eval, Htruth. repeat split.
  - intros c Hc (( oid & Hid) & (name & Hname) & _) Hemail Hpw.
    exists oid, name. repeat split; [done..|].
    rewrite (find_by_key st "customer" "email" _ c) by done.
    unfold dict_get, dict_get_default. rewrite Hpw, Hid, Hname. simpl.
    by rewrite decide_True.
  - intros Hnone. destruct (head _) as [c|] eqn:Hh; [|done].
    apply find_head in Hh as [Hc Hm]. apply matches_singleton in Hm.
    by destruct (Hnone c Hc).
  - intros c Hc Hemail Hpw.
    rewrite (find_by_key st "customer" "email" _ c) by done.
    rewrite decide_False; [done|].
    unfold dict_get. intros Heq. destruct (c !! "password_hash") as [v|]; simpl in Heq; congruence.
Qed.

Lemma login_correct_witness :
  login (LoginRequest.make "a@x.com" "pw1") (Some Example.store)
  = (Ok (LoginResponse.make (Bson.to_str Example.alice_id)
           (Bson.to_str Example.alice_id) "Alice"), Some Example.store)
  ∧ login (LoginRequest.make "a@x.com" "pw2") (Some Example.store)
    = (Raise (Unauthorized "Invalid credentials"), Some Example.store).
Proof.
  assert (unique_emails (collection Example.store "customer")) as Huniq by compute_done.
  assert (Example.alice ∈ collection Example.store "customer") as Hin by compute_done.
  split.
  - destruct (login_correct Example.store (LoginRequest.make "a@x.com" "pw1")
                eq_refl Huniq) as (Hok & _ & _).
    destruct (Hok Example.alice Hin) as (oid & name & Hid & Hname & Hlogin).
    + unfold Customer.is_record. repeat split; eexists; reflexivity.
    + reflexivity.
    + reflexivity.
    + vm_compute in Hid, Hname. injection Hid as <-. injection Hname as <-. exact Hlogin.
  - destruct (login_correct Example.store (LoginRequest.make "a@x.com" "pw2")
                eq_refl Huniq) as (_ & _ & Hbad).
    apply (Hbad Example.alice Hin).
    + reflexivity.
    + compute_done.
Defined.

(** C3, the failing input: the stored customer Alice, her email and her
    password, behind a store handle that does not support the truth test
    ([bool()] of the driver's database raises [NotImplementedError]; it
    supports the comparison with [None] only).  [login] compares the handle
    with [None], but [get_customer_by_email] tests [if db]: the exception
    leaves [login] uncaught and the response is an internal server error,
    neither the token of the claim nor Unauthorized; an unknown email gets
    the same answer.  The same customers behind a handle that tests true
    get the token. *)
Theorem login_raises_behind_untestable_handle :
  Example.alice ∈ collection Example.store_untestable "customer" ∧
  Example.alice !! "email" = Some (VStr "a@x.com") ∧
  Example.alice !! "password_hash" = Some (VStr "pw1") ∧
  login (LoginRequest.make "a@x.com" "pw1") (Some Example.store_untestable)
    = (Raise NotImplementedError, Some Example.store_untestable) ∧
  login (LoginRequest.make "nobody@x.com" "pw1") (Some Example.store_untestable)
    = (Raise NotImplementedError, Some Example.store_untestable) ∧
  response_status NotImplementedError = 500 ∧
  collections Example.store_untestable = collections Example.store ∧
  login (LoginRequest.make "a@x.com" "pw1") (Some Example.store)
    = (Ok (LoginResponse.make (Bson.to_str Example.alice_id)
             (Bson.to_str Example.alice_id) "Alice"), Some Example.store).
Proof.
  split_and!; try reflexivity. compute_done.
Qed.

(** ** The lead and feedback handlers on the in-memory store *)

Lemma create_lead_eval `{EmailValidator} (st : Store) (fresh : ObjectId)
    (payload : LeadCreate.t) (customer : dict) :
  create_lead fresh payload customer (Some st) =
  match customer !! "_id" with
  | Some id =>
      match Lead.new (py_str id) (LeadCreate.name payload) (LeadCreate.email payload)
              (LeadCreate.phone payload) (LeadCreate.source payload) with
      | Ok data => (Ok (created fresh), Some (insert_one st "lead" (lead_document fresh data)))
      | Raise e => (Raise e, Some st)
      end
  | None => (Raise (KeyError "_id"), Some st)
  end.
Proof.
  unfold create_lead. unfold_monad.
  destruct (customer !! "_id") as [id|]; [|done].
  by destruct (Lead.new _ _ _ _ _).
Qed.

Lemma list_leads_eval (st : Store) (customer : dict) :
  list_leads customer (Some st) =
  match customer !! "_id" with
  | Some id =>
      (Ok (stringify_id <$> take 100 (find st "lead" {["customer_id" := VStr (py_str id)]})),
       Some st)
  | None => (Raise (KeyError "_id"), Some st)
  end.
Proof.
  unfold list_leads. unfold_monad. by destruct (customer !! "_id").
Qed.

Lemma find_own_lead_eval (st : Store) (lead_id : string) (customer : dict) :
  find_own_lead lead_id customer (Some st) =
  match Bson.parse lead_id with
  | Some oid =>
      match customer !! "_id" with
      | Some id => (Ok (head (find st "lead" (own_lead_filter oid id))), Some st)
      | None => (Raise (KeyError "_id"), Some st)
      end
  | None => (Raise InvalidId, Some st)
  end.
Proof.
  unfold find_own_lead, ObjectId_of. unfold_monad. simpl.
  destruct (Bson.parse lead_id); [|done]. by destruct (customer !! "_id").
Qed.

Lemma own_lead_truthy (st : Store) (oid : ObjectId) (id : Value) (lead : dict) :
  head (find st "lead" (own_lead_filter oid id)) = Some lead →
  dict_truthy lead = true.
Proof.
  intros Hh. apply find_head in Hh as [_ Hm]. apply matches_insert in Hm.
  by eapply dict_truthy_lookup.
Qed.

Lemma submit_feedback_eval (st : Store) (fresh : ObjectId) (now : datetime)
    (payload : FeedbackCreate.t) (customer : dict) :
  submit_feedback fresh now payload customer (Some st) =
  match Bson.parse (FeedbackCreate.lead_id payload) with
  | Some oid =>
      match customer !! "_id" with
      | Some id =>
          match head (find st "lead" (own_lead_filter oid id)) with
          | Some _ =>
              match Feedback.new (FeedbackCreate.lead_id payload) (py_str id)
                      (FeedbackCreate.rating payload)
                      (disposition_or_default (FeedbackCreate.disposition payload))
                      (FeedbackCreate.comment payload) now with
              | Ok data =>
                  (Ok (created fresh),
                   Some (insert_one st "feedback" (feedback_document fresh data)))
              | Raise e => (Raise e, Some st)
              end
          | None => (Raise NotFound, Some st)
          end
      | None => (Raise (KeyError "_id"), Some st)
      end
  | None => (Raise InvalidId, Some st)
  end.
Proof.
  unfold submit_feedback. unfold bind at 1. rewrite find_own_lead_eval.
  destruct (Bson.parse _) as [oid|]; [|done].
  destruct (customer !! "_id") as [id|] eqn:Hid; [|done].
  destruct (head _) as [lead|] eqn:Hh; [|done].
  simpl. rewrite (own_lead_truthy _ _ _ _ Hh). simpl.
  unfold_monad. rewrite Hid. fold (disposition_or_default (FeedbackCreate.disposition payload)).
  by destruct (Feedback.new _ _ _ _ _ _).
Qed.

Lemma get_feedback_for_lead_eval (st : Store) (lead_id : string) (customer : dict) :
  get_feedback_for_lead lead_id customer (Some st) =
  match Bson.parse lead_id with
  | Some oid =>
      match customer !! "_id" with
      | Some id =>
          match head (find st "lead" (own_lead_filter oid id)) with
          | Some _ =>
              (Ok (stringify_id <$>
                     take 200 (find st "feedback"
                                 (<["lead_id" := VStr lead_id]>
                                    {["customer_id" := VStr (py_str id)]}))),
               Some st)
          | None => (Raise NotFound, Some st)
          end
      | None => (Raise (KeyError "_id"), Some st)
      end
  | None => (Raise InvalidId, Some st)
  end.
Proof.
  unfold get_feedback_for_lead. unfold bind at 1. rewrite find_own_lead_eval.
  destruct (Bson.parse _) as [oid|]; [|done].
  destruct (customer !! "_id") as [id|] eqn:Hid; [|done].
  destruct (head _) as [lead|] eqn:Hh; [|done].
  simpl. rewrite (own_lead_truthy _ _ _ _ Hh). simpl.
  unfold_monad. by rewrite Hid.
Qed.

(** A route runs its handler on the customer its dependency resolved. *)
Lemma route_eval {A} (st : Store) (authorization : option string) (customer : dict)
    (handler : dict → M (option Store) A) :
  get_current_customer authorization (Some st) = (Ok customer, Some st) →
  (let* c := get_current_customer authorization in handler c) (Some st)
  = handler customer (Some st).
Proof. intros Hc. unfold bind. by rewrite Hc. Qed.

(** ... and fails as the dependency does, without running the handler. *)
Lemma route_unauthenticated {A} (w w' : option Store) (authorization : option string)
    (e : Exception) (handler : dict → M (option Store) A) :
  get_current_customer authorization w = (Raise e, w') →
  (let* c := get_current_customer authorization in handler c) w = (Raise e, w').
Proof. intros Hc. unfold bind. by rewrite Hc. Qed.

(** ** Leads: listing and creation *)

Lemma stringify_id_other (d : dict) (k : string) :
  k ≠ "_id" → stringify_id d !! k = d !! k.
Proof. intros Hk. unfold stringify_id. by rewrite lookup_insert_ne. Qed.

Lemma stringify_id_id (d : dict) (v : Value) :
  d !! "_id" = Some v → stringify_id d !! "_id" = Some (VStr (py_str v)).
Proof. intros Hv. unfold stringify_id. by rewrite lookup_insert_eq, Hv. Qed.

Lemma Lead_new_fields `{EmailValidator} (customer_id name : string)
    (email phone source : option string) (data : Lead.t) :
  Lead.new customer_id name email phone source = Ok data →
  Lead.customer_id data = customer_id ∧ Lead.name data = name ∧
  Lead.phone data = phone ∧ Lead.source data = source ∧
  Lead.status data = "new" ∧ Lead.notes data = None ∧
  Optional_EmailStr email = Ok (Lead.email data).
Proof.
  unfold Lead.new. destruct (Optional_EmailStr email) as [email'|]; [|done].
  by intros [= <-].
Qed.

Lemma lead_document_fields (fresh : ObjectId) (data : Lead.t) :
  lead_document fresh data !! "_id" = Some (VObjectId fresh) ∧
  lead_document fresh data !! "customer_id" = Some (VStr (Lead.customer_id data)) ∧
  lead_document fresh data !! "name" = Some (VStr (Lead.name data)) ∧
  lead_document fresh data !! "status" = Some (VStr (Lead.status data)).
Proof. unfold lead_document, Lead.model_dump. by simplify_map_eq. Qed.

Lemma collection_insert_one (st : Store) (name : string) (doc : dict) :
  collection (insert_one st name doc) name = collection st name ++ [doc].
Proof. unfold collection at 1, insert_one. simpl. by rewrite lookup_insert_eq. Qed.

Lemma collection_insert_one_ne (st : Store) (name other : string) (doc : dict) :
  name ≠ other → collection (insert_one st name doc) other = collection st other.
Proof.
  intros Hne. unfold collection at 1, insert_one. simpl. by rewrite lookup_insert_ne.
Qed.

(** The leads a customer's listing is drawn from. *)
Lemma listed_leads (st : Store) (id : ObjectId) :
  let leads := take 100 (find st "lead" {["customer_id" := VStr (Bson.to_str id)]}) in
  length leads ≤ 100 ∧ leads `sublist_of` collection st "lead" ∧
  ∀ d, d ∈ leads → d !! "customer_id" = Some (VStr (Bson.to_str id)).
Proof.
  intros leads. repeat split.
  - unfold leads. rewrite length_take. lia.
  - unfold leads, find. etrans; [apply sublist_take | apply sublist_filter].
  - intros d Hd. apply subseteq_take in Hd. apply list_elem_of_filter in Hd as [Hm _].
    by apply matches_singleton in Hm.
Qed.

(** C1: tenant isolation of the lead listing.  For a customer resolved from
    the Authorization header, GET /leads returns at most 100 of the stored
    leads, all with customer_id equal to the customer's identifier as text
    and each with its identifier rendered as text; and a lead that another
    customer creates through POST /leads, in whatever state of the store, is
    not among them. *)
Theorem lead_listing_isolation `{EmailValidator} (st : Store)
    (authorization : option string) (customer : dict) :
  get_current_customer authorization (Some st) = (Ok customer, Some st) →
  ∃ (id : ObjectId) (leads : list dict),
    customer !! "_id" = Some (VObjectId id) ∧
    GET_leads authorization (Some st) = (Ok (stringify_id <$> leads), Some st) ∧
    length (stringify_id <$> leads) ≤ 100 ∧
    leads `sublist_of` collection st "lead" ∧
    (∀ d, d ∈ leads →
       d !! "customer_id" = Some (VStr (Bson.to_str id)) ∧
       stringify_id d !! "customer_id" = Some (VStr (Bson.to_str id)) ∧
       ∀ v, d !! "_id" = Some v → stringify_id d !! "_id" = Some (VStr (py_str v))) ∧
    (∀ (st0 : Store) (authorization0 : option string) (other : dict)
       (fresh : ObjectId) (payload : LeadCreate.t) (response : dict) (w : option Store),
       get_current_customer authorization0 (Some st0) = (Ok other, Some st0) →
       other !! "_id" ≠ customer !! "_id" →
       POST_leads fresh authorization0 payload (Some st0) = (Ok response, w) →
       ∃ lead, w = Some (insert_one st0 "lead" lead) ∧
               (lead ∉ leads) ∧ stringify_id lead ∉ (stringify_id <$> leads)).
Proof.
  intros Hc. destruct (get_current_customer_Ok _ _ _ _ Hc) as (_ & _ & id & _ & Hid).
  destruct (listed_leads st id) as (Hlen & Hsub & Hown).
  eexists id, _. split; [done|]. split.
  { unfold GET_leads. rewrite (route_eval _ _ _ _ Hc), list_leads_eval, Hid. done. }
  split; [by rewrite length_fmap|]. split; [done|]. split.
  { intros d Hd. split; [by apply Hown|]. split.
    - rewrite stringify_id_other by done. by apply Hown.
    - apply stringify_id_id. }
  intros st0 authorization0 other fresh payload response w Ho Hne Hpost.
  destruct (get_current_customer_Ok _ _ _ _ Ho) as (_ & _ & id0 & _ & Hid0).
  unfold POST_leads in Hpost. rewrite (route_eval _ _ _ _ Ho), create_lead_eval, Hid0 in Hpost.
  destruct (Lead.new _ _ _ _ _) as [data|] eqn:Hnew; [|done].
  injection Hpost as _ <-. eexists. split; [done|].
  apply Lead_new_fields in Hnew as (Hcid & _).
  destruct (lead_document_fields fresh data) as (_ & Hlc & _).
  rewrite Hcid in Hlc. simpl in Hlc.
  assert (Bson.to_str id0 ≠ Bson.to_str id) as Hstr.
  { intros Heq. apply BsonFacts.to_str_inj in Heq. congruence. }
  split.
  - intros Hin. apply Hown in Hin. congruence.
  - intros Hin. apply list_elem_of_fmap in Hin as (d & Heq & Hd).
    apply Hown in Hd. rewrite <- (stringify_id_other d "customer_id") in Hd by done.
    rewrite <- Heq, stringify_id_other in Hd by done. congruence.
Qed.

Lemma lead_listing_isolation_witness :
  ∃ (id : ObjectId) (leads : list dict),
    Example.bob !! "_id" = Some (VObjectId id) ∧
    GET_leads Example.bob_header (Some Example.store_with_lead)
      = (Ok (stringify_id <$> leads), Some Example.store_with_lead) ∧
    Example.jane ∉ leads.
Proof.
  destruct (lead_listing_isolation (H := Example.at_sign) Example.store_with_lead
              Example.bob_header Example.bob) as (id & leads & Hid & Hget & _ & _ & _ & Hiso).
  { reflexivity. }
  exists id, leads. split; [exact Hid|]. split; [exact Hget|].
  destruct (Hiso Example.store Example.alice_header Example.alice Example.lead_id
              (LeadCreate.make "Jane" None None None) (created Example.lead_id)
              (Some Example.store_with_lead)) as (lead & Hw & Hnot & _).
  - reflexivity.
  - compute_done.
  - reflexivity.
  - assert (lead = Example.jane) as <-; [|exact Hnot].
    apply (f_equal (λ w : option Store,
                      match w with
                      | Some st => last (collection st "lead")
                      | None => None
                      end)) in Hw.
    cbv beta iota in Hw. unfold Example.store_with_lead in Hw.
    rewrite !collection_insert_one, !last_snoc in Hw. congruence.
Defined.

(** C6, as amended: creation of a lead.  For a customer resolved from the
    Authorization header and a payload whose email is absent or accepted by
    the schema's address validation, POST /leads appends exactly one
    document to the lead collection, with customer_id the customer's
    identifier as text, the payload's name and status "new", leaves the
    other collections as they were, and returns the identifier generated for
    the document. *)
Theorem lead_creation `{EmailValidator} (st : Store) (authorization : option string)
    (customer : dict) (fresh : ObjectId) (payload : LeadCreate.t)
    (email : option string) :
  get_current_customer authorization (Some st) = (Ok customer, Some st) →
  Optional_EmailStr (LeadCreate.email payload) = Ok email →
  ∃ (id : ObjectId) (lead : dict),
    customer !! "_id" = Some (VObjectId id) ∧
    POST_leads fresh authorization payload (Some st)
      = (Ok ({["id" := VStr (Bson.to_str fresh)]} : dict),
         Some (insert_one st "lead" lead)) ∧
    collection (insert_one st "lead" lead) "lead" = collection st "lead" ++ [lead] ∧
    (∀ other, other ≠ "lead" →
       collection (insert_one st "lead" lead) other = collection st other) ∧
    lead !! "_id" = Some (VObjectId fresh) ∧
    lead !! "customer_id" = Some (VStr (Bson.to_str id)) ∧
    lead !! "name" = Some (VStr (LeadCreate.name payload)) ∧
    lead !! "status" = Some (VStr "new").
Proof.
  intros Hc Hemail.
  destruct (get_current_customer_Ok _ _ _ _ Hc) as (_ & _ & id & _ & Hid).
  unfold POST_leads. rewrite (route_eval _ _ _ _ Hc), create_lead_eval, Hid.
  destruct (Lead.new _ _ _ _ _) as [data|e] eqn:Hnew.
  - apply Lead_new_fields in Hnew as (Hcid & Hname & _ & _ & Hstatus & _).
    destruct (lead_document_fields fresh data) as (Hl1 & Hl2 & Hl3 & Hl4).
    rewrite Hcid in Hl2. rewrite Hname in Hl3. rewrite Hstatus in Hl4.
    exists id, (lead_document fresh data).
    split; [done|]. split; [done|]. split; [apply collection_insert_one|].
    split; [intros other Hne; by apply collection_insert_one_ne|]. done.
  - unfold Lead.new in Hnew. by rewrite Hemail in Hnew.
Qed.

Lemma lead_creation_witness :
  ∃ (id : ObjectId) (lead : dict),
    POST_leads (H0 := Example.at_sign) Example.lead_id Example.alice_header
      (LeadCreate.make "Jane" (Some "jane@x.com") None None) (Some Example.store)
      = (Ok ({["id" := VStr (Bson.to_str Example.lead_id)]} : dict),
         Some (insert_one Example.store "lead" lead)) ∧
    lead !! "customer_id" = Some (VStr (Bson.to_str id)) ∧
    Example.alice !! "_id" = Some (VObjectId id).
Proof.
  destruct (lead_creation (H := Example.at_sign) Example.store Example.alice_header
              Example.alice Example.lead_id
              (LeadCreate.make "Jane" (Some "jane@x.com") None None)
              (Some "jane@x.com"))
    as (id & lead & Hid & Hpost & _ & _ & _ & Hcid & _).
  - reflexivity.
  - reflexivity.
  - exists id, lead. split; [exact Hpost|]. split; [exact Hcid | exact Hid].
Defined.

(** C6, the claim as stated fails: an authenticated customer posts a lead
    whose email the schema rejects; the construction of the Lead raises and
    nothing is persisted. *)
Lemma lead_creation_rejects_invalid_email :
  get_current_customer Example.alice_header (Some Example.store)
    = (Ok Example.alice, Some Example.store) ∧
  POST_leads (H0 := Example.at_sign) Example.lead_id Example.alice_header
    (LeadCreate.make "Jane" (Some "not-an-email") None None) (Some Example.store)
    = (Raise ValidationError, Some Example.store).
Proof. split; reflexivity. Qed.

(** ** Feedback: the ownership check and creation *)

Lemma Feedback_new_Ok (lead_id customer_id : string) (rating : option Z)
    (disposition : string) (comment : option string) (now : datetime) :
  Feedback.rating_ok rating = true → Feedback.disposition_ok disposition = true →
  Feedback.new lead_id customer_id rating disposition comment now
  = Ok (Feedback.make lead_id customer_id rating disposition comment (Some now)).
Proof. intros Hr Hd. unfold Feedback.new. by rewrite Hr, Hd. Qed.

Lemma feedback_document_fields (fresh : ObjectId) (data : Feedback.t) :
  feedback_document fresh data !! "_id" = Some (VObjectId fresh) ∧
  feedback_document fresh data !! "lead_id" = Some (VStr (Feedback.lead_id data)) ∧
  feedback_document fresh data !! "customer_id" = Some (VStr (Feedback.customer_id data)) ∧
  feedback_document fresh data !! "rating" = Some (of_opt_int (Feedback.rating data)) ∧
  feedback_document fresh data !! "disposition" = Some (VStr (Feedback.disposition data)) ∧
  feedback_document fresh data !! "submitted_at"
    = Some (match Feedback.submitted_at data with
            | Some t => VDatetime t
            | None => VNone
            end).
Proof. unfold feedback_document, Feedback.model_dump. by simplify_map_eq. Qed.

Lemma matches_own_lead (oid : ObjectId) (id : Value) (lead : dict) :
  matches (own_lead_filter oid id) lead ↔
  lead !! "_id" = Some (VObjectId oid) ∧ lead !! "customer_id" = Some (VStr (py_str id)).
Proof.
  unfold matches, own_lead_filter. rewrite map_subseteq_spec. split.
  - intros Hsub. split; apply Hsub; by simplify_map_eq.
  - intros [H1 H2] k v Hk.
    destruct (decide (k = "_id")) as [->|]; [by simplify_map_eq|].
    destruct (decide (k = "customer_id")) as [->|]; by simplify_map_eq.
Qed.

Lemma no_own_lead_find (st : Store) (oid id : ObjectId) :
  no_own_lead st oid id →
  head (find st "lead" (own_lead_filter oid (VObjectId id))) = None.
Proof.
  intros Hnone. destruct (head _) as [lead|] eqn:Hh; [|done].
  apply find_head in Hh as [Hin Hm]. apply matches_own_lead in Hm.
  by destruct (Hnone lead Hin).
Qed.

(** The ownership check, for a [lead_id] that is a well-formed identifier:
    when no stored lead carries both that identifier and the caller as
    owner, both feedback routes fail with the same NotFound, whether the
    lead is absent or another customer's, and the store is left as it
    was. *)
Lemma feedback_ownership_check (st : Store) (authorization : option string)
    (customer : dict) (id oid : ObjectId) (fresh : ObjectId) (now : datetime)
    (payload : FeedbackCreate.t) :
  get_current_customer authorization (Some st) = (Ok customer, Some st) →
  customer !! "_id" = Some (VObjectId id) →
  Bson.parse (FeedbackCreate.lead_id payload) = Some oid →
  no_own_lead st oid id →
  POST_feedback fresh now authorization payload (Some st) = (Raise NotFound, Some st) ∧
  GET_feedback authorization (FeedbackCreate.lead_id payload) (Some st)
    = (Raise NotFound, Some st).
Proof.
  intros Hc Hid Hparse Hnone. unfold POST_feedback, GET_feedback.
  rewrite !(route_eval _ _ _ _ Hc), submit_feedback_eval, get_feedback_for_lead_eval.
  by rewrite Hparse, Hid, no_own_lead_find.
Qed.

(** C2, the failing input: an authenticated customer and a [lead_id] that
    is not a well-formed identifier.  No lead carries it, yet neither route
    answers NotFound: the conversion of [lead_id] raises [InvalidId], which
    no handler catches, and the response is an internal server error. *)
Theorem feedback_malformed_lead_id :
  get_current_customer Example.alice_header (Some Example.store_with_lead)
    = (Ok Example.alice, Some Example.store_with_lead) ∧
  POST_feedback Example.feedback_id Example.noon Example.alice_header
    (FeedbackCreate.make "no-such-lead" None None None) (Some Example.store_with_lead)
    = (Raise InvalidId, Some Example.store_with_lead) ∧
  GET_feedback Example.alice_header "no-such-lead" (Some Example.store_with_lead)
    = (Raise InvalidId, Some Example.store_with_lead) ∧
  response_status InvalidId = 500 ∧ response_status NotFound = 404.
Proof. repeat split; reflexivity. Qed.

(** C7, as amended: creation of a feedback record.  For a customer resolved
    from the Authorization header, a [lead_id] that passes the ownership
    check, a rating that is absent or between 1 and 5 and a disposition that
    is absent, empty or one of the five of the schema, POST /feedback
    appends exactly one document to the feedback collection, with
    customer_id the caller's identifier as text, the disposition supplied
    (or "follow_up" when it is absent or empty) and the current timestamp,
    leaves the other collections as they were, and returns the identifier
    generated for the document. *)
Theorem feedback_creation (st : Store) (authorization : option string)
    (customer lead : dict) (fresh : ObjectId) (now : datetime)
    (payload : FeedbackCreate.t) :
  get_current_customer authorization (Some st) = (Ok customer, Some st) →
  find_own_lead (FeedbackCreate.lead_id payload) customer (Some st)
    = (Ok (Some lead), Some st) →
  Feedback.rating_ok (FeedbackCreate.rating payload) = true →
  Feedback.disposition_ok
    (disposition_or_default (FeedbackCreate.disposition payload)) = true →
  ∃ (id : ObjectId) (feedback : dict),
    customer !! "_id" = Some (VObjectId id) ∧
    POST_feedback fresh now authorization payload (Some st)
      = (Ok ({["id" := VStr (Bson.to_str fresh)]} : dict),
         Some (insert_one st "feedback" feedback)) ∧
    collection (insert_one st "feedback" feedback) "feedback"
      = collection st "feedback" ++ [feedback] ∧
    (∀ other, other ≠ "feedback" →
       collection (insert_one st "feedback" feedback) other = collection st other) ∧
    feedback !! "_id" = Some (VObjectId fresh) ∧
    feedback !! "lead_id" = Some (VStr (FeedbackCreate.lead_id payload)) ∧
    feedback !! "customer_id" = Some (VStr (Bson.to_str id)) ∧
    feedback !! "rating" = Some (of_opt_int (FeedbackCreate.rating payload)) ∧
    feedback !! "disposition"
      = Some (VStr (match FeedbackCreate.disposition payload with
                    | Some (String c d) => String c d
                    | _ => "follow_up"
                    end)) ∧
    feedback !! "submitted_at" = Some (VDatetime now).
Proof.
  intros Hc Hlead Hrating Hdisp.
  destruct (get_current_customer_Ok _ _ _ _ Hc) as (_ & _ & id & _ & Hid).
  rewrite find_own_lead_eval, Hid in Hlead.
  destruct (Bson.parse _) as [oid|] eqn:Hparse; [|done]. injection Hlead as Hlead.
  unfold POST_feedback. rewrite (route_eval _ _ _ _ Hc), submit_feedback_eval.
  rewrite Hparse, Hid, Hlead, Feedback_new_Ok by done.
  eexists id, _. split; [done|]. split; [done|].
  split; [apply collection_insert_one|].
  split; [intros other Hne; by apply collection_insert_one_ne|].
  destruct (feedback_document_fields fresh
              (Feedback.make (FeedbackCreate.lead_id payload) (py_str (VObjectId id))
                 (FeedbackCreate.rating payload)
                 (disposition_or_default (FeedbackCreate.disposition payload))
                 (FeedbackCreate.comment payload) (Some now)))
    as (H1 & H2 & H3 & H4 & H5 & H6).
  do 4 (split; [done|]). split; [|done].
  rewrite H5. simpl. by destruct (FeedbackCreate.disposition payload) as [[|c d]|].
Qed.

Lemma feedback_creation_witness :
  ∃ (id : ObjectId) (feedback : dict),
    POST_feedback Example.feedback_id Example.noon Example.alice_header
      (FeedbackCreate.make (Bson.to_str Example.lead_id) (Some 5%Z) None None)
      (Some Example.store_with_lead)
      = (Ok ({["id" := VStr (Bson.to_str Example.feedback_id)]} : dict),
         Some (insert_one Example.store_with_lead "feedback" feedback)) ∧
    Example.alice !! "_id" = Some (VObjectId id) ∧
    feedback !! "customer_id" = Some (VStr (Bson.to_str id)) ∧
    feedback !! "disposition" = Some (VStr "follow_up") ∧
    feedback !! "submitted_at" = Some (VDatetime Example.noon).
Proof.
  destruct (feedback_creation Example.store_with_lead Example.alice_header
              Example.alice Example.jane Example.feedback_id Example.noon
              (FeedbackCreate.make (Bson.to_str Example.lead_id) (Some 5%Z) None None))
    as (id & feedback & Hid & Hpost & _ & _ & _ & _ & Hcid & _ & Hdisp & Hat).
  - reflexivity.
  - reflexivity.
  - reflexivity.
  - reflexivity.
  - exists id, feedback. repeat split; assumption.
Defined.

(** C7, the claim as stated fails: the lead passes the ownership check, but
    with a rating outside the range of the schema the construction of the
    Feedback raises and nothing is persisted; and with an empty disposition
    the record is persisted with "follow_up", not with the value supplied. *)
Lemma feedback_creation_rejects_rating :
  find_own_lead (Bson.to_str Example.lead_id) Example.alice (Some Example.store_with_lead)
    = (Ok (Some Example.jane), Some Example.store_with_lead) ∧
  POST_feedback Example.feedback_id Example.noon Example.alice_header
    (FeedbackCreate.make (Bson.to_str Example.lead_id) (Some 7%Z) (Some "qualified") None)
    (Some Example.store_with_lead)
    = (Raise ValidationError, Some Example.store_with_lead) ∧
  POST_feedback Example.feedback_id Example.noon Example.alice_header
    (FeedbackCreate.make (Bson.to_str Example.lead_id) (Some 5%Z) (Some "") None)
    (Some Example.store_with_lead)
    = (Ok (created Example.feedback_id),
       Some (insert_one Example.store_with_lead "feedback"
               (feedback_document Example.feedback_id
                  (Feedback.make (Bson.to_str Example.lead_id)
                     (Bson.to_str Example.alice_id) (Some 5%Z) "follow_up" None
                     (Some Example.noon))))).
Proof. repeat split; reflexivity. Qed.

(** ** Seeding of the default admin *)

(** C8: failures of the admin seed are swallowed.  Over any store, whatever
    its operations do, [ensure_default_admin] and the startup hook return
    normally: with no store configured nothing happens, and an exception
    raised by the lookup or by the insertion is caught and dropped. *)
Theorem admin_seed_failures_swallowed {DB} `{Database DB} (fresh : ObjectId)
    (w : option DB) :
  (∃ w', ensure_default_admin fresh w = (Ok tt, w') ∧
         startup_event fresh w = (Ok tt, w')) ∧
  ensure_default_admin fresh (None : option DB) = (Ok tt, None) ∧
  (∀ d d' e, find_one "admin" default_admin d = (Raise e, d') →
     ensure_default_admin fresh (Some d) = (Ok tt, Some d')) ∧
  (∀ d d' d'' e, find_one "admin" default_admin d = (Ok None, d') →
     create_document fresh "admin"
       (Admin.model_dump (Admin.make "admin" "admin" "admin" true)) d' = (Raise e, d'') →
     ensure_default_admin fresh (Some d) = (Ok tt, Some d'')).
Proof.
  repeat split.
  - unfold startup_event, ensure_default_admin, try_except.
    destruct (bind _ _ w) as [[[]|e] w']; eauto.
  - intros d d' e Hfind. unfold ensure_default_admin. unfold_monad.
    unfold default_admin in Hfind. by rewrite Hfind.
  - intros d d' d'' e Hfind Hcreate. unfold ensure_default_admin. unfold_monad.
    unfold default_admin in Hfind. rewrite Hfind. simpl.
    by rewrite Hcreate.
Qed.

Lemma admin_seed_failures_swallowed_witness :
  ensure_default_admin (H := Example.unreachable) Example.admin_id (Some tt) = (Ok tt, Some tt) ∧
  ensure_default_admin (H := Example.read_only) Example.admin_id (Some tt) = (Ok tt, Some tt).
Proof.
  split.
  - destruct (admin_seed_failures_swallowed (H := Example.unreachable) Example.admin_id None)
      as (_ & _ & Hfind & _).
    apply (Hfind tt tt (StoreError "unreachable")). reflexivity.
  - destruct (admin_seed_failures_swallowed (H := Example.read_only) Example.admin_id None)
      as (_ & _ & _ & Hcreate).
    apply (Hcreate tt tt tt (StoreError "read only")); reflexivity.
Defined.

Lemma ensure_default_admin_eval (st : Store) (fresh : ObjectId) :
  ensure_default_admin fresh (Some st) =
  (Ok tt, Some (match head (find st "admin" default_admin) with
                | Some _ => st
                | None => insert_one st "admin" (admin_document fresh)
                end)).
Proof.
  unfold ensure_default_admin, default_admin. unfold_monad. simpl.
  destruct (head _) as [a|] eqn:Hh; [|done]. simpl.
  apply find_head in Hh as [_ Hm]. apply matches_singleton in Hm.
  by rewrite (dict_truthy_lookup _ _ _ Hm).
Qed.

Lemma admin_document_fields (fresh : ObjectId) :
  admin_document fresh !! "_id" = Some (VObjectId fresh) ∧
  admin_document fresh !! "username" = Some (VStr "admin") ∧
  admin_document fresh !! "password_hash" = Some (VStr "admin") ∧
  admin_document fresh !! "is_active" = Some (VBool true).
Proof. unfold admin_document, Admin.model_dump. by simplify_map_eq. Qed.

Lemma count_zero_head (st : Store) (name : string) (flt : dict) :
  count st name flt = 0 ↔ head (find st name flt) = None.
Proof. unfold count. rewrite head_None. apply length_zero_iff_nil. Qed.

Lemma count_insert_one (st : Store) (name : string) (flt doc : dict) :
  matches flt doc → count (insert_one st name doc) name flt = S (count st name flt).
Proof.
  intros Hm. unfold count, find. rewrite collection_insert_one, filter_app, length_app.
  rewrite filter_cons_True by done. simpl. lia.
Qed.

Lemma admin_document_matches (fresh : ObjectId) : matches default_admin (admin_document fresh).
Proof. apply matches_singleton, admin_document_fields. Qed.

Lemma run_startups_cons (id : ObjectId) (ids : list ObjectId) (st : Store) :
  run_startups (id :: ids) (Some st)
  = run_startups ids (Some (match head (find st "admin" default_admin) with
                            | Some _ => st
                            | None => insert_one st "admin" (admin_document id)
                            end)).
Proof.
  unfold run_startups. cbn [foldl]. unfold startup_event at 2.
  by rewrite ensure_default_admin_eval.
Qed.

(** Once a default admin is stored, startups leave the store alone. *)
Lemma run_startups_seeded (ids : list ObjectId) (st : Store) :
  count st "admin" default_admin ≠ 0 → run_startups ids (Some st) = Some st.
Proof.
  intros Hcount. induction ids as [|id ids IH]; [done|].
  rewrite run_startups_cons.
  destruct (head _) eqn:Hh; [done|]. by apply (proj2 (count_zero_head _ _ _)) in Hh.
Qed.

(** C5: admin seeding is idempotent.  On a store with no record of username
    "admin" the seed inserts one, with password_hash "admin" and is_active
    true; on a store that has one it changes nothing; a second run changes
    nothing after the first; and from a store with at most one such record,
    any number of startups leaves at most one, and exactly one as soon as
    there is a run. *)
Theorem admin_seeding_idempotent (st : Store) (fresh fresh' : ObjectId)
    (ids : list ObjectId) :
  (count st "admin" default_admin = 0 →
   ensure_default_admin fresh (Some st)
     = (Ok tt, Some (insert_one st "admin" (admin_document fresh)))) ∧
  (admin_document fresh !! "username" = Some (VStr "admin") ∧
   admin_document fresh !! "password_hash" = Some (VStr "admin") ∧
   admin_document fresh !! "is_active" = Some (VBool true)) ∧
  (count st "admin" default_admin ≠ 0 →
   ensure_default_admin fresh (Some st) = (Ok tt, Some st)) ∧
  snd (ensure_default_admin fresh' (snd (ensure_default_admin fresh (Some st))))
    = snd (ensure_default_admin fresh (Some st)) ∧
  (count st "admin" default_admin ≤ 1 →
   world_count (run_startups ids (Some st)) "admin" default_admin ≤ 1 ∧
   (ids ≠ [] → world_count (run_startups ids (Some st)) "admin" default_admin = 1)).
Proof.
  assert (∀ id, count (insert_one st "admin" (admin_document id)) "admin" default_admin
                = S (count st "admin" default_admin)) as Hins.
  { intros id. apply count_insert_one, admin_document_matches. }
  split; [|split; [|split; [|split]]].
  - intros Hzero. rewrite ensure_default_admin_eval.
    apply (proj1 (count_zero_head _ _ _)) in Hzero. by rewrite Hzero.
  - apply admin_document_fields.
  - intros Hsome. rewrite ensure_default_admin_eval.
    destruct (head _) eqn:Hh; [done|]. by apply (proj2 (count_zero_head _ _ _)) in Hh.
  - rewrite (ensure_default_admin_eval st). cbn [snd].
    destruct (head (find st "admin" default_admin)) eqn:Hh.
    + by rewrite ensure_default_admin_eval, Hh.
    + rewrite ensure_default_admin_eval. cbn [snd].
      destruct (head (find (insert_one _ _ _) _ _)) eqn:Hh'; [done|].
      apply (proj2 (count_zero_head _ _ _)) in Hh'. rewrite Hins in Hh'. lia.
  - intros Hle. destruct (decide (count st "admin" default_admin = 0)) as [Hzero|Hsome].
    + destruct ids as [|id ids].
      * cbn. split; [lia | done].
      * rewrite run_startups_cons, (proj1 (count_zero_head _ _ _) Hzero).
        rewrite run_startups_seeded by (rewrite Hins; lia).
        cbn [world_count]. rewrite Hins, Hzero. split; [lia | done].
    + rewrite run_startups_seeded by done. cbn [world_count]. split; lia.
Qed.

Lemma admin_seeding_idempotent_witness :
  world_count (run_startups [Example.admin_id; Example.feedback_id] (Some Example.store))
    "admin" default_admin = 1.
Proof.
  destruct (admin_seeding_idempotent Example.store Example.admin_id Example.admin_id
              [Example.admin_id; Example.feedback_id]) as (_ & _ & _ & _ & Hruns).
  destruct Hruns as [_ Hone].
  - compute_done.
  - apply Hone. discriminate.
Defined.

(** ** The [is_active] flag *)

Section IsActive.
Implicit Types (d : dict) (st : Store).

Lemma same_but_is_active_lookup d1 d2 (k : string) :
  same_but_is_active d1 d2 → k ≠ "is_active" → d1 !! k = d2 !! k.
Proof.
  intros Hsame Hk.
  rewrite <- (lookup_delete_ne d1 "is_active" k), <- (lookup_delete_ne d2 "is_active" k) by done.
  by rewrite Hsame.
Qed.

Lemma same_but_is_active_matches (flt : dict) d1 d2 :
  same_but_is_active d1 d2 → flt !! "is_active" = None →
  matches flt d1 ↔ matches flt d2.
Proof.
  intros Hsame Hflt. unfold matches. rewrite !map_subseteq_spec.
  assert (∀ k v, flt !! k = Some v → d1 !! k = d2 !! k) as Heq.
  { intros k v Hk. apply same_but_is_active_lookup; [done|]. intros ->. congruence. }
  split; intros Hm k v Hk; specialize (Hm k v Hk); specialize (Heq k v Hk); congruence.
Qed.

Lemma same_but_is_active_filter (flt : dict) (docs1 docs2 : list dict) :
  Forall2 same_but_is_active docs1 docs2 → flt !! "is_active" = None →
  Forall2 same_but_is_active (filter (matches flt) docs1) (filter (matches flt) docs2).
Proof.
  intros Hdocs Hflt. induction Hdocs as [|d1 d2 docs1 docs2 Hd _ IH]; [constructor|].
  pose proof (same_but_is_active_matches flt d1 d2 Hd Hflt) as Hiff.
  rewrite !filter_cons. destruct (decide (matches flt d1)), (decide (matches flt d2)).
  - by constructor.
  - tauto.
  - tauto.
  - done.
Qed.

(** A lookup among the customers that does not mention [is_active] finds
    corresponding records in both stores. *)
Lemma same_customers_find_one st1 st2 (flt : dict) :
  same_but_customers_is_active st1 st2 → flt !! "is_active" = None →
  option_Forall2 same_but_is_active
    (head (find st1 "customer" flt)) (head (find st2 "customer" flt)).
Proof.
  intros (_ & Hcust & _) Hflt. unfold find.
  destruct (same_but_is_active_filter flt _ _ Hcust Hflt); by constructor.
Qed.

Lemma same_other_find st1 st2 (name : string) (flt : dict) :
  same_but_customers_is_active st1 st2 → name ≠ "customer" →
  find st1 name flt = find st2 name flt.
Proof. intros (_ & _ & Hother) Hne. unfold find. by rewrite Hother. Qed.

Lemma same_insert_one st1 st2 (name : string) (doc : dict) :
  same_but_customers_is_active st1 st2 → name ≠ "customer" →
  same_but_customers_is_active (insert_one st1 name doc) (insert_one st2 name doc).
Proof.
  intros (Htruth & Hcust & Hother) Hne. split; [done|]. split.
  - by rewrite !collection_insert_one_ne.
  - intros other Ho. destruct (decide (name = other)) as [<-|Hno].
    + by rewrite !collection_insert_one, Hother.
    + rewrite !collection_insert_one_ne by done. by apply Hother.
Qed.

Lemma login_same st1 st2 (payload : LoginRequest.t) :
  same_but_customers_is_active st1 st2 →
  fst (login payload (Some st1)) = fst (login payload (Some st2)).
Proof.
  intros Hsame. rewrite !login_eval. cbn [fst].
  assert (option_Forall2 same_but_is_active
            (head (find st1 "customer" {["email" := VStr (LoginRequest.email payload)]}))
            (head (find st2 "customer" {["email" := VStr (LoginRequest.email payload)]})))
    as Hfind by (by apply same_customers_find_one).
  destruct Hsame as (Htruth & Hrest). rewrite <- Htruth.
  destruct (handle_truth st1) as [[]|]; [|done..].
  destruct Hfind as [c1 c2 Hc|]; [|done].
  unfold dict_get, dict_get_default.
  by rewrite !(same_but_is_active_lookup c1 c2 _ Hc).
Qed.

Lemma get_current_customer_same st1 st2 (authorization : option string) :
  same_but_customers_is_active st1 st2 →
  agree (λ c1 c2, same_but_is_active c1 c2 ∧ c1 !! "_id" = c2 !! "_id")
    (fst (get_current_customer authorization (Some st1)))
    (fst (get_current_customer authorization (Some st2))).
Proof.
  intros Hsame. rewrite !get_current_customer_eval. cbn [fst].
  destruct (opt_str_truthy authorization); [|done].
  destruct (Bson.parse _) as [oid|]; [|done].
  assert (option_Forall2 same_but_is_active
            (head (find st1 "customer" {["_id" := VObjectId oid]}))
            (head (find st2 "customer" {["_id" := VObjectId oid]})))
    as Hfind by (by apply same_customers_find_one).
  destruct Hfind as [c1 c2 Hc|]; [|done].
  split; [done|]. by apply same_but_is_active_lookup.
Qed.

(** A route, in terms of what its dependency answers. *)
Lemma route_cases {A} st (authorization : option string)
    (handler : dict → M (option Store) A) :
  (let* c := get_current_customer authorization in handler c) (Some st)
  = match fst (get_current_customer authorization (Some st)) with
    | Ok customer => handler customer (Some st)
    | Raise e => (Raise e, Some st)
    end.
Proof.
  unfold bind at 1.
  destruct (get_current_customer authorization (Some st)) as [r w] eqn:Hc.
  rewrite get_current_customer_eval in Hc. injection Hc as <- <-.
  by destruct (if opt_str_truthy authorization then _ else _).
Qed.

(** Two routes agree on two stores when their handlers do on corresponding
    customers. *)
Lemma route_same {A} st1 st2 (authorization : option string)
    (handler : dict → M (option Store) A) :
  same_but_customers_is_active st1 st2 →
  (∀ c1 c2, c1 !! "_id" = c2 !! "_id" →
     fst (handler c1 (Some st1)) = fst (handler c2 (Some st2)) ∧
     worlds_agree (snd (handler c1 (Some st1))) (snd (handler c2 (Some st2)))) →
  let route := (let* c := get_current_customer authorization in handler c) in
  fst (route (Some st1)) = fst (route (Some st2)) ∧
  worlds_agree (snd (route (Some st1))) (snd (route (Some st2))).
Proof.
  intros Hsame Hhandler route. unfold route. rewrite !route_cases.
  pose proof (get_current_customer_same st1 st2 authorization Hsame) as Hagree.
  destruct (fst (get_current_customer authorization (Some st1))) as [c1|e1],
           (fst (get_current_customer authorization (Some st2))) as [c2|e2];
    simpl in Hagree; try done.
  - apply Hhandler, Hagree.
  - subst. by split.
Qed.

End IsActive.

(** C10: the is_active flag is never consulted.  On two stores that differ
    at most in the is_active values of their customer records, login
    answers the same; token resolution fails alike or resolves to customer
    records that differ at most in is_active; and every authenticated lead
    and feedback route returns the same response and leaves stores that
    again differ at most in those is_active values. *)
Theorem is_active_never_consulted `{EmailValidator} (st1 st2 : Store) :
  same_but_customers_is_active st1 st2 →
  (∀ payload, fst (login payload (Some st1)) = fst (login payload (Some st2))) ∧
  (∀ authorization,
     agree (λ c1 c2, same_but_is_active c1 c2 ∧ c1 !! "_id" = c2 !! "_id")
       (fst (get_current_customer authorization (Some st1)))
       (fst (get_current_customer authorization (Some st2)))) ∧
  (∀ fresh authorization payload,
     fst (POST_leads fresh authorization payload (Some st1))
       = fst (POST_leads fresh authorization payload (Some st2)) ∧
     worlds_agree (snd (POST_leads fresh authorization payload (Some st1)))
       (snd (POST_leads fresh authorization payload (Some st2)))) ∧
  (∀ authorization,
     fst (GET_leads authorization (Some st1)) = fst (GET_leads authorization (Some st2)) ∧
     worlds_agree (snd (GET_leads authorization (Some st1)))
       (snd (GET_leads authorization (Some st2)))) ∧
  (∀ fresh now authorization payload,
     fst (POST_feedback fresh now authorization payload (Some st1))
       = fst (POST_feedback fresh now authorization payload (Some st2)) ∧
     worlds_agree (snd (POST_feedback fresh now authorization payload (Some st1)))
       (snd (POST_feedback fresh now authorization payload (Some st2)))) ∧
  (∀ authorization lead_id,
     fst (GET_feedback authorization lead_id (Some st1))
       = fst (GET_feedback authorization lead_id (Some st2)) ∧
     worlds_agree (snd (GET_feedback authorization lead_id (Some st1)))
       (snd (GET_feedback authorization lead_id (Some st2)))).
Proof.
  intros Hsame.
  split; [intros; by apply login_same|].
  split; [intros; by apply get_current_customer_same|].
  split; [|split; [|split]].
  - intros fresh authorization payload. apply route_same; [done|].
    intros c1 c2 Hid. rewrite !create_lead_eval, Hid.
    destruct (c2 !! "_id") as [id|]; [|done].
    destruct (Lead.new _ _ _ _ _); [|done].
    split; [done|]. by apply same_insert_one.
  - intros authorization. apply route_same; [done|].
    intros c1 c2 Hid. rewrite !list_leads_eval, Hid.
    destruct (c2 !! "_id") as [id|]; [|done].
    by rewrite (same_other_find st1 st2).
  - intros fresh now authorization payload. apply route_same; [done|].
    intros c1 c2 Hid. rewrite !submit_feedback_eval, Hid.
    destruct (Bson.parse _) as [oid|]; [|done].
    destruct (c2 !! "_id") as [id|]; [|done].
    rewrite (same_other_find st1 st2) by done.
    destruct (head _); [|done].
    destruct (Feedback.new _ _ _ _ _ _); [|done].
    split; [done|]. by apply same_insert_one.
  - intros authorization lead_id. apply route_same; [done|].
    intros c1 c2 Hid. rewrite !get_feedback_for_lead_eval, Hid.
    destruct (Bson.parse _) as [oid|]; [|done].
    destruct (c2 !! "_id") as [id|]; [|done].
    rewrite (same_other_find st1 st2 "lead") by done.
    destruct (head _); [|done].
    by rewrite (same_other_find st1 st2 "feedback").
Qed.

Lemma example_stores_same :
  same_but_customers_is_active Example.store Example.store_bob_inactive.
Proof.
  split; [reflexivity|]. split.
  - repeat constructor; reflexivity.
  - intros name Hne. unfold collection, Example.store, Example.store_bob_inactive. simpl.
    by rewrite !lookup_singleton_ne.
Defined.

Lemma is_active_never_consulted_witness :
  fst (login (LoginRequest.make "b@x.com" "pw2") (Some Example.store))
    = fst (login (LoginRequest.make "b@x.com" "pw2") (Some Example.store_bob_inactive)) ∧
  fst (GET_leads Example.bob_header (Some Example.store))
    = fst (GET_leads Example.bob_header (Some Example.store_bob_inactive)).
Proof.
  destruct (is_active_never_consulted (H := Example.at_sign) Example.store
              Example.store_bob_inactive example_stores_same)
    as (Hlogin & _ & _ & Hlist & _).
  split; [apply Hlogin | apply Hlist].
Defined.

(** * Further properties *)

(** ** Admin login and admin tokens *)

(** [admin_login], evaluated on a configured store.  The record found
    carries the username it was looked up with, so the default of
    [admin.get("username", "admin")] is never used. *)
Lemma admin_login_eval (st : Store) (payload : AdminLoginRequest.t) :
  admin_login payload (Some st) =
  (match head (find st "admin"
                 {["username" := VStr (AdminLoginRequest.username payload)]}) with
   | Some admin =>
       if decide (VStr (AdminLoginRequest.password payload) = dict_get admin "password_hash")
       then
         let token := py_str (dict_get admin "_id") in
         Ok (AdminLoginResponse.make token token
               (AdminLoginRequest.username payload) "admin")
       else Raise (Unauthorized "Invalid credentials")
   | None => Raise (Unauthorized "Invalid credentials")
   end, Some st).
Proof.
  unfold admin_login. unfold_monad. simpl.
  destruct (head _) as [a|] eqn:Hh; [|done]. simpl.
  apply find_head in Hh as [_ Hm]. apply matches_singleton in Hm.
  rewrite (dict_truthy_lookup _ _ _ Hm). simpl.
  case_decide as Hpw.
  - rewrite bool_decide_eq_false_2 by tauto.
    unfold dict_get_default. by rewrite Hm.
  - by rewrite bool_decide_eq_true_2.
Qed.

(** Admin login.  With no store configured it fails with the status 500.
    On a configured store whose admins have distinct usernames, the
    username and the stored password_hash of an admin record return its
    identifier as text, as token and as admin_id; a username no record
    carries and a password other than the stored one fail with the status
    401; and every success echoes the username of the request, with the
    role "admin", and leaves the store as it was. *)
Theorem admin_login_correct (st : Store) (payload : AdminLoginRequest.t) :
  unique_usernames (collection st "admin") →
  admin_login payload (None : option Store) = (Raise ServiceUnavailable, None) ∧
  (∀ a oid, a ∈ collection st "admin" →
     a !! "_id" = Some (VObjectId oid) →
     a !! "username" = Some (VStr (AdminLoginRequest.username payload)) →
     a !! "password_hash" = Some (VStr (AdminLoginRequest.password payload)) →
     admin_login payload (Some st)
     = (Ok (AdminLoginResponse.make (Bson.to_str oid) (Bson.to_str oid)
              (AdminLoginRequest.username payload) "admin"), Some st)) ∧
  ((∀ a, a ∈ collection st "admin" →
      a !! "username" ≠ Some (VStr (AdminLoginRequest.username payload))) →
   admin_login payload (Some st) = (Raise (Unauthorized "Invalid credentials"), Some st)) ∧
  (∀ a, a ∈ collection st "admin" →
     a !! "username" = Some (VStr (AdminLoginRequest.username payload)) →
     a !! "password_hash" ≠ Some (VStr (AdminLoginRequest.password payload)) →
     admin_login payload (Some st) = (Raise (Unauthorized "Invalid credentials"), Some st)) ∧
  (∀ response w, admin_login payload (Some st) = (Ok response, w) →
     w = Some st ∧
     AdminLoginResponse.username response = AdminLoginRequest.username payload ∧
     AdminLoginResponse.role response = "admin" ∧
     AdminLoginResponse.admin_id response = AdminLoginResponse.token response).
Proof.
  intros Huniq. split; [done|]. rewrite admin_login_eval. split_and!.
  - intros a oid Ha Hid Hu Hpw.
    rewrite (find_by_key st "admin" "username" _ a) by done.
    unfold dict_get. rewrite Hpw, Hid. simpl. by rewrite decide_True.
  - intros Hnone. destruct (head _) as [a|] eqn:Hh; [|done].
    apply find_head in Hh as [Ha Hm]. apply matches_singleton in Hm.
    by destruct (Hnone a Ha).
  - intros a Ha Hu Hpw.
    rewrite (find_by_key st "admin" "username" _ a) by done.
    rewrite decide_False; [done|].
    unfold dict_get. intros Heq. destruct (a !! "password_hash"); simpl in Heq; congruence.
  - intros response w. destruct (head _); [|done]. case_decide; [|done].
    by intros [= <- <-].
Qed.

Lemma admin_login_correct_witness :
  admin_login (AdminLoginRequest.make "root" "s3cret") (Some Sample.store_with_root)
  = (Ok (AdminLoginResponse.make (Bson.to_str Example.admin_id)
           (Bson.to_str Example.admin_id) "root" "admin"), Some Sample.store_with_root)
  ∧ admin_login (AdminLoginRequest.make "root" "admin") (Some Sample.store_with_root)
    = (Raise (Unauthorized "Invalid credentials"), Some Sample.store_with_root).
Proof.
  assert (unique_usernames (collection Sample.store_with_root "admin")) as Huniq
    by compute_done.
  assert (Sample.root ∈ collection Sample.store_with_root "admin") as Hin by compute_done.
  split.
  - destruct (admin_login_correct Sample.store_with_root
                (AdminLoginRequest.make "root" "s3cret") Huniq) as (_ & Hok & _).
    apply (Hok Sample.root Example.admin_id Hin); reflexivity.
  - destruct (admin_login_correct Sample.store_with_root
                (AdminLoginRequest.make "root" "admin") Huniq) as (_ & _ & _ & Hbad & _).
    apply (Hbad Sample.root Hin); [reflexivity | compute_done].
Defined.

(** Token resolution of an admin looks in the admin collection alone: the
    resolved record is a stored admin that carries the identifier the token
    denotes, and a token whose identifier no admin carries is refused with
    the status 401, even when it is the identifier of a customer. *)
Theorem admin_token_resolution (st : Store) (authorization : option string) :
  let token := PyStr.replace "Bearer " "" (default "" authorization) in
  get_current_admin authorization (None : option Store) = (Raise ServiceUnavailable, None) ∧
  (∀ admin w, get_current_admin authorization (Some st) = (Ok admin, w) →
     w = Some st ∧ admin ∈ collection st "admin" ∧
     ∃ oid, Bson.parse token = Some oid ∧ admin !! "_id" = Some (VObjectId oid)) ∧
  (∀ oid, Bson.parse token = Some oid →
     (∀ a, a ∈ collection st "admin" → a !! "_id" ≠ Some (VObjectId oid)) →
     ∃ detail, get_current_admin authorization (Some st)
               = (Raise (Unauthorized detail), Some st)) ∧
  (∀ oid a, opt_str_truthy authorization = true → Bson.parse token = Some oid →
     unique_ids (collection st "admin") →
     a ∈ collection st "admin" → a !! "_id" = Some (VObjectId oid) →
     get_current_admin authorization (Some st) = (Ok a, Some st)).
Proof.
  intros token. split; [done|]. rewrite get_current_admin_eval. fold token. split_and!.
  - intros admin w. destruct (opt_str_truthy authorization); [|done].
    destruct (Bson.parse token) as [oid|]; [|done]. destruct (head _) eqn:Hh; [|done].
    intros [= <- <-]. apply find_head in Hh as [Ha Hm]. apply matches_singleton in Hm.
    eauto.
  - intros oid -> Hnone. destruct (opt_str_truthy authorization); [|by eexists].
    destruct (head _) as [a|] eqn:Hh; [|by eexists].
    apply find_head in Hh as [Ha Hm]. apply matches_singleton in Hm.
    by destruct (Hnone a Ha).
  - intros oid a -> -> Huniq Ha Hid. by rewrite (find_by_id st "admin" _ a).
Qed.

Lemma admin_token_resolution_witness :
  get_current_admin (Some ("Bearer " +:+ Bson.to_str Example.admin_id))
    (Some Sample.store_with_root) = (Ok Sample.root, Some Sample.store_with_root) ∧
  ∃ detail, get_current_admin Example.alice_header (Some Sample.store_with_root)
            = (Raise (Unauthorized detail), Some Sample.store_with_root).
Proof.
  split.
  - destruct (admin_token_resolution Sample.store_with_root
                (Some ("Bearer " +:+ Bson.to_str Example.admin_id))) as (_ & _ & _ & Hok).
    apply (Hok Example.admin_id Sample.root); [reflexivity | reflexivity | | | reflexivity];
      compute_done.
  - destruct (admin_token_resolution Sample.store_with_root Example.alice_header)
      as (_ & _ & Hno & _).
    apply (Hno Example.alice_id); [reflexivity|].
    intros a Ha. assert (a = Sample.root) as ->; [|compute_done].
    apply list_elem_of_singleton. exact Ha.
Defined.

(** ** Logging in, then presenting the token *)


Lemma resolve_admin_by_id (st : Store) (a : dict) (oid : ObjectId) (n : nat) :
  Bson.generated oid → unique_ids (collection st "admin") →
  a ∈ collection st "admin" → a !! "_id" = Some (VObjectId oid) →
  get_current_admin (Some (PyStr.prefixed "Bearer " n (Bson.to_str oid))) (Some st)
  = (Ok a, Some st).
Proof.
  intros Hgen Huniq Ha Hid. rewrite get_current_admin_eval. simpl.
  rewrite prefixed_truthy by (by apply BsonFacts.to_str_nonempty).
  rewrite token_of_prefixed, BsonFacts.parse_to_str by done.
  by rewrite (find_by_id st "admin" _ a).
Qed.



(** The same for admins: the token of [admin_login] resolves through
    [get_current_admin] to the record the credentials belong to. *)
Theorem admin_login_then_resolve (st : Store) (payload : AdminLoginRequest.t) (a : dict)
    (oid : ObjectId) :
  unique_usernames (collection st "admin") →
  unique_ids (collection st "admin") →
  a ∈ collection st "admin" →
  a !! "_id" = Some (VObjectId oid) → Bson.generated oid →
  a !! "username" = Some (VStr (AdminLoginRequest.username payload)) →
  a !! "password_hash" = Some (VStr (AdminLoginRequest.password payload)) →
  ∃ response,
    admin_login payload (Some st) = (Ok response, Some st) ∧
    get_current_admin (Some ("Bearer " +:+ AdminLoginResponse.token response)) (Some st)
      = (Ok a, Some st).
Proof.
  intros Hnames Hids Ha Hid Hgen Hu Hpw.
  rewrite admin_login_eval.
  rewrite (find_by_key st "admin" "username" _ a) by done.
  unfold dict_get. rewrite Hpw, Hid. simpl.
  rewrite decide_True by done. eexists. split; [done|]. simpl.
  by apply (resolve_admin_by_id st a oid 1).
Qed.

Lemma admin_login_then_resolve_witness :
  ∃ response,
    admin_login (AdminLoginRequest.make "root" "s3cret") (Some Sample.store_with_root)
      = (Ok response, Some Sample.store_with_root) ∧
    get_current_admin (Some ("Bearer " +:+ AdminLoginResponse.token response))
      (Some Sample.store_with_root) = (Ok Sample.root, Some Sample.store_with_root).
Proof.
  apply (admin_login_then_resolve Sample.store_with_root
           (AdminLoginRequest.make "root" "s3cret") Sample.root Example.admin_id);
    first [reflexivity | compute_done].
Defined.

(** ** The seeded admin *)

Lemma find_insert_one_fresh (st : Store) (name : string) (flt doc : dict) :
  head (find st name flt) = None → matches flt doc →
  head (find (insert_one st name doc) name flt) = Some doc.
Proof.
  intros Hnone Hm. unfold find in *. rewrite collection_insert_one, filter_app.
  apply head_None in Hnone. rewrite Hnone. simpl.
  by rewrite filter_cons_True.
Qed.

Lemma find_insert_one_found (st : Store) (name : string) (flt doc found : dict) :
  head (find st name flt) = Some found →
  head (find (insert_one st name doc) name flt) = Some found.
Proof.
  intros Hfound. unfold find in *. rewrite collection_insert_one, filter_app.
  destruct (filter (matches flt) (collection st name)); [done|]. done.
Qed.

(** Seeding and admin login compose.  After a startup on a store without a
    record of username "admin", the credentials admin/admin log in, and the
    token is the identifier generated for the seeded record; when that
    identifier is one the store generated and no admin carried it before,
    the token resolves to the seeded record.  After a startup on a store
    whose record of username "admin" has another password, that record is
    still the one consulted, and admin/admin is refused. *)
Theorem seeded_admin_login (st : Store) (fresh : ObjectId) :
  let w := snd (startup_event fresh (Some st)) in
  let credentials := AdminLoginRequest.make "admin" "admin" in
  (head (find st "admin" default_admin) = None →
   w = Some (insert_one st "admin" (admin_document fresh)) ∧
   admin_login credentials w
   = (Ok (AdminLoginResponse.make (Bson.to_str fresh) (Bson.to_str fresh) "admin" "admin"),
      w) ∧
   (Bson.generated fresh →
    (∀ a, a ∈ collection st "admin" → a !! "_id" ≠ Some (VObjectId fresh)) →
    get_current_admin (Some ("Bearer " +:+ Bson.to_str fresh)) w
    = (Ok (admin_document fresh), w))) ∧
  (∀ a, head (find st "admin" default_admin) = Some a →
     a !! "password_hash" ≠ Some (VStr "admin") →
     w = Some st ∧
     admin_login credentials w = (Raise (Unauthorized "Invalid credentials"), w)).
Proof.
  intros w credentials. unfold w, startup_event. rewrite ensure_default_admin_eval.
  cbn [snd]. split.
  - intros Hnone. rewrite Hnone. split; [done|]. split.
    + rewrite admin_login_eval. unfold credentials. cbn [AdminLoginRequest.username].
      fold default_admin.
      rewrite (find_insert_one_fresh st "admin" default_admin (admin_document fresh))
        by (done || apply admin_document_matches).
      destruct (admin_document_fields fresh) as (Hid & _ & Hpw & _).
      unfold dict_get. rewrite Hpw, Hid. done.
    + intros Hgen Hnew. rewrite get_current_admin_eval. simpl.
      change ("Bearer " +:+ Bson.to_str fresh)
        with (PyStr.prefixed "Bearer " 1 (Bson.to_str fresh)).
      rewrite token_of_prefixed, BsonFacts.parse_to_str by done.
      rewrite find_insert_one_fresh; [done| |].
      * destruct (head (find st "admin" {["_id" := VObjectId fresh]})) as [a|] eqn:Hh;
          [exfalso|reflexivity].
        apply find_head in Hh as [Ha Hm]. apply matches_singleton in Hm.
        by destruct (Hnew a Ha).
      * apply matches_singleton, admin_document_fields.
  - intros a Ha Hpw. rewrite Ha. split; [done|].
    rewrite admin_login_eval. unfold credentials. cbn [AdminLoginRequest.username].
    fold default_admin. rewrite Ha. rewrite decide_False; [done|].
    unfold dict_get. intros Heq. destruct (a !! "password_hash"); simpl in Heq; congruence.
Qed.

Lemma seeded_admin_login_witness :
  admin_login (AdminLoginRequest.make "admin" "admin")
    (snd (startup_event Example.feedback_id (Some Sample.store_with_root)))
  = (Ok (AdminLoginResponse.make (Bson.to_str Example.feedback_id)
           (Bson.to_str Example.feedback_id) "admin" "admin"),
     snd (startup_event Example.feedback_id (Some Sample.store_with_root))).
Proof.
  destruct (seeded_admin_login Sample.store_with_root Example.feedback_id) as [Hnew _].
  destruct Hnew as (_ & Hlogin & _); [reflexivity|]. exact Hlogin.
Defined.

(** ** Creating, then listing *)

Lemma find_insert_one (st : Store) (name : string) (flt doc : dict) :
  find (insert_one st name doc) name flt
  = find st name flt ++ (if decide (matches flt doc) then [doc] else []).
Proof.
  unfold find. rewrite collection_insert_one, filter_app. f_equal.
Qed.

Lemma find_insert_one_ne (st : Store) (name other : string) (flt doc : dict) :
  name ≠ other → find (insert_one st name doc) other flt = find st other flt.
Proof. intros Hne. unfold find. by rewrite collection_insert_one_ne. Qed.

(** Token resolution reads the customers alone: an insertion elsewhere
    does not change what a header resolves to. *)
Lemma get_current_customer_insert_one (st : Store) (name : string) (doc : dict)
    (authorization : option string) :
  name ≠ "customer" →
  get_current_customer authorization (Some (insert_one st name doc))
  = (fst (get_current_customer authorization (Some st)), Some (insert_one st name doc)).
Proof.
  intros Hne. rewrite !get_current_customer_eval. cbn [fst].
  destruct (opt_str_truthy authorization); [|done].
  destruct (Bson.parse _) as [oid|]; [|done].
  by rewrite find_insert_one_ne.
Qed.

(** Creating a lead, then listing.  After POST /leads, GET /leads of the
    same customer holds one record more than the leads the customer had, up
    to the limit of 100.  As long as the customer had fewer than 100 leads,
    it holds the records listed before and, beside them, the new lead:
    identifier as text the one POST /leads returned, customer_id the
    caller's identifier, the name of the payload and status "new".  Nothing
    is said of the order of the listing. *)
Theorem lead_created_then_listed `{EmailValidator} (st : Store)
    (authorization : option string) (customer : dict) (fresh : ObjectId)
    (payload : LeadCreate.t) (email : option string) :
  get_current_customer authorization (Some st) = (Ok customer, Some st) →
  Optional_EmailStr (LeadCreate.email payload) = Ok email →
  ∃ (id : ObjectId) (lead : dict) (before after : list dict),
    customer !! "_id" = Some (VObjectId id) ∧
    POST_leads fresh authorization payload (Some st)
      = (Ok ({["id" := VStr (Bson.to_str fresh)]} : dict),
         Some (insert_one st "lead" lead)) ∧
    GET_leads authorization (Some st) = (Ok before, Some st) ∧
    GET_leads authorization (Some (insert_one st "lead" lead))
      = (Ok after, Some (insert_one st "lead" lead)) ∧
    let had := count st "lead" {["customer_id" := VStr (Bson.to_str id)]} in
    length after = Nat.min 100 (S had) ∧
    (had < 100 →
     ∃ listed,
       after ≡ₚ listed :: before ∧
       listed !! "_id" = Some (VStr (Bson.to_str fresh)) ∧
       listed !! "customer_id" = Some (VStr (Bson.to_str id)) ∧
       listed !! "name" = Some (VStr (LeadCreate.name payload)) ∧
       listed !! "status" = Some (VStr "new")).
Proof.
  intros Hc Hemail.
  destruct (get_current_customer_Ok _ _ _ _ Hc) as (_ & _ & id & _ & Hid).
  unfold POST_leads, GET_leads.
  rewrite !(route_eval _ _ _ _ Hc), create_lead_eval, list_leads_eval, Hid.
  destruct (Lead.new _ _ _ _ _) as [data|e] eqn:Hnew;
    [|unfold Lead.new in Hnew; by rewrite Hemail in Hnew].
  apply Lead_new_fields in Hnew as (Hcid & Hname & _ & _ & Hstatus & _).
  destruct (lead_document_fields fresh data) as (Hl1 & Hl2 & Hl3 & Hl4).
  rewrite Hcid in Hl2. rewrite Hname in Hl3. rewrite Hstatus in Hl4. simpl in Hl2.
  assert (get_current_customer authorization
            (Some (insert_one st "lead" (lead_document fresh data)))
          = (Ok customer, Some (insert_one st "lead" (lead_document fresh data)))) as Hc'.
  { rewrite get_current_customer_insert_one by done. by rewrite Hc. }
  eexists id, (lead_document fresh data), _, _.
  split; [done|]. split; [done|]. split; [done|].
  rewrite (route_eval _ _ _ _ Hc'), list_leads_eval, Hid. cbn [py_str].
  rewrite find_insert_one, decide_True by (by apply matches_singleton).
  split; [done|]. unfold count.
  set (had := find st "lead" {["customer_id" := VStr (Bson.to_str id)]}).
  split.
  - rewrite length_fmap, length_take, length_app. cbn [length]. lia.
  - intros Hn. exists (stringify_id (lead_document fresh data)).
    split_and!.
    + rewrite !take_ge by (rewrite ?length_app; simpl; lia).
      rewrite fmap_app. simpl. symmetry. apply Permutation_cons_append.
    + exact (stringify_id_id _ _ Hl1).
    + by rewrite stringify_id_other.
    + by rewrite stringify_id_other.
    + by rewrite stringify_id_other.
Qed.

Lemma sample_crowded_count :
  count Sample.crowded "lead" {["customer_id" := VStr (Bson.to_str Example.alice_id)]} = 100.
Proof. reflexivity. Qed.

Lemma sample_lead_count :
  count Example.store_with_lead "lead"
    {["customer_id" := VStr (Bson.to_str Example.alice_id)]} = 1.
Proof. reflexivity. Qed.

Lemma lead_created_then_listed_witness :
  (∃ (lead listed : dict) (after : list dict),
     POST_leads (H0 := Example.at_sign) Example.feedback_id Example.alice_header
       (LeadCreate.make "Joe" None None None) (Some Example.store_with_lead)
       = (Ok ({["id" := VStr (Bson.to_str Example.feedback_id)]} : dict),
          Some (insert_one Example.store_with_lead "lead" lead)) ∧
     GET_leads Example.alice_header (Some (insert_one Example.store_with_lead "lead" lead))
       = (Ok after, Some (insert_one Example.store_with_lead "lead" lead)) ∧
     after ≡ₚ [listed; stringify_id Example.jane] ∧
     listed !! "_id" = Some (VStr (Bson.to_str Example.feedback_id)) ∧
     listed !! "name" = Some (VStr "Joe") ∧
     listed !! "status" = Some (VStr "new")) ∧
  (∃ (lead : dict) (after : list dict),
     POST_leads (H0 := Example.at_sign) Example.feedback_id Example.alice_header
       (LeadCreate.make "Joe" None None None) (Some Sample.crowded)
       = (Ok ({["id" := VStr (Bson.to_str Example.feedback_id)]} : dict),
          Some (insert_one Sample.crowded "lead" lead)) ∧
     GET_leads Example.alice_header (Some (insert_one Sample.crowded "lead" lead))
       = (Ok after, Some (insert_one Sample.crowded "lead" lead)) ∧
     length after = 100).
Proof.
  split.
  - destruct (lead_created_then_listed (H := Example.at_sign) Example.store_with_lead
                Example.alice_header Example.alice Example.feedback_id
                (LeadCreate.make "Joe" None None None) None)
      as (id & lead & before & after & Hid & Hpost & Hbefore & Hafter & _ & Hfew).
    + reflexivity.
    + reflexivity.
    + assert (Some (VObjectId id) = Some (VObjectId Example.alice_id)) as Heq
        by (rewrite <- Hid; reflexivity).
      injection Heq as ->.
      assert (before = [stringify_id Example.jane]) as ->.
      { assert ((Ok before, Some Example.store_with_lead)
                = (Ok [stringify_id Example.jane], Some Example.store_with_lead)) as Heq
          by (rewrite <- Hbefore; reflexivity).
        apply (f_equal (λ p, match fst p with Ok l => l | Raise _ => [] end)) in Heq.
        exact Heq. }
      destruct Hfew as (listed & Hperm & Hl1 & _ & Hl3 & Hl4).
      { rewrite sample_lead_count. lia. }
      exists lead, listed, after. split_and!; assumption.
  - destruct (lead_created_then_listed (H := Example.at_sign) Sample.crowded
                Example.alice_header Example.alice Example.feedback_id
                (LeadCreate.make "Joe" None None None) None)
      as (id & lead & before & after & Hid & Hpost & _ & Hafter & Hlen & _).
    + reflexivity.
    + reflexivity.
    + assert (Some (VObjectId id) = Some (VObjectId Example.alice_id)) as Heq
        by (rewrite <- Hid; reflexivity).
      injection Heq as ->.
      exists lead, after. split; [exact Hpost|]. split; [exact Hafter|].
      rewrite Hlen, sample_crowded_count. reflexivity.
Defined.

(** ** Feedback: listing, spelling of the lead identifier *)

Lemma matches_feedback_filter (lead_id : string) (id : Value) (d : dict) :
  matches (feedback_filter lead_id id) d ↔
  d !! "lead_id" = Some (VStr lead_id) ∧ d !! "customer_id" = Some (VStr (py_str id)).
Proof.
  unfold matches, feedback_filter. rewrite map_subseteq_spec. split.
  - intros Hsub. split; apply Hsub; by simplify_map_eq.
  - intros [H1 H2] k v Hk.
    destruct (decide (k = "lead_id")) as [->|]; [by simplify_map_eq|].
    destruct (decide (k = "customer_id")) as [->|]; by simplify_map_eq.
Qed.

(** [get_feedback_for_lead], for a customer whose identifier is known. *)
Lemma get_feedback_for_lead_eval' (st : Store) (lead_id : string) (customer : dict)
    (id : Value) :
  customer !! "_id" = Some id →
  get_feedback_for_lead lead_id customer (Some st) =
  (match Bson.parse lead_id with
   | Some oid =>
       match head (find st "lead" (own_lead_filter oid id)) with
       | Some _ =>
           Ok (stringify_id <$> take 200 (find st "feedback" (feedback_filter lead_id id)))
       | None => Raise NotFound
       end
   | None => Raise InvalidId
   end, Some st).
Proof.
  intros Hid. rewrite get_feedback_for_lead_eval, Hid. unfold feedback_filter.
  destruct (Bson.parse lead_id); [|done]. by destruct (head _).
Qed.

(** The feedback listing.  Whatever GET /feedback/{lead_id} returns to a
    customer is at most 200 stored feedback records, each carrying the
    caller's identifier as customer_id and the requested lead_id as it was
    spelled, with its own identifier rendered as text; the caller owns a
    stored lead with that identifier; the store is left as it was; and a
    feedback record another customer creates through POST /feedback, in
    whatever state of the store, is never among them. *)
Theorem feedback_listing_isolation (st : Store) (authorization : option string)
    (customer : dict) (lead_id : string) (docs : list dict) (w : option Store) :
  get_current_customer authorization (Some st) = (Ok customer, Some st) →
  GET_feedback authorization lead_id (Some st) = (Ok docs, w) →
  ∃ (id oid : ObjectId) (lead : dict) (stored : list dict),
    w = Some st ∧
    customer !! "_id" = Some (VObjectId id) ∧
    Bson.parse lead_id = Some oid ∧
    lead ∈ collection st "lead" ∧
    lead !! "_id" = Some (VObjectId oid) ∧
    lead !! "customer_id" = Some (VStr (Bson.to_str id)) ∧
    docs = stringify_id <$> stored ∧
    length docs ≤ 200 ∧
    stored `sublist_of` collection st "feedback" ∧
    (∀ d, d ∈ docs →
       d !! "customer_id" = Some (VStr (Bson.to_str id)) ∧
       d !! "lead_id" = Some (VStr lead_id)) ∧
    (∀ (st0 : Store) (authorization0 : option string) (other : dict)
       (fresh : ObjectId) (now : datetime) (payload : FeedbackCreate.t)
       (response : dict) (w0 : option Store),
       get_current_customer authorization0 (Some st0) = (Ok other, Some st0) →
       other !! "_id" ≠ customer !! "_id" →
       POST_feedback fresh now authorization0 payload (Some st0) = (Ok response, w0) →
       ∃ feedback, w0 = Some (insert_one st0 "feedback" feedback) ∧
                   stringify_id feedback ∉ docs).
Proof.
  intros Hc Hget.
  destruct (get_current_customer_Ok _ _ _ _ Hc) as (_ & _ & id & _ & Hid).
  unfold GET_feedback in Hget.
  rewrite (route_eval _ _ _ _ Hc), (get_feedback_for_lead_eval' _ _ _ _ Hid) in Hget.
  destruct (Bson.parse lead_id) as [oid|] eqn:Hparse; [|done].
  destruct (head (find st "lead" _)) as [lead|] eqn:Hlead; [|done].
  injection Hget as <- <-.
  apply find_head in Hlead as [Hin Hm]. apply matches_own_lead in Hm as [Hl1 Hl2].
  set (stored := take 200 (find st "feedback" (feedback_filter lead_id (VObjectId id)))).
  assert (∀ d, d ∈ stored →
            d !! "lead_id" = Some (VStr lead_id) ∧
            d !! "customer_id" = Some (VStr (Bson.to_str id))) as Hstored.
  { intros d Hd. apply subseteq_take in Hd. apply list_elem_of_filter in Hd as [Hm _].
    by apply matches_feedback_filter in Hm. }
  assert (∀ d, d ∈ stringify_id <$> stored →
            d !! "customer_id" = Some (VStr (Bson.to_str id)) ∧
            d !! "lead_id" = Some (VStr lead_id)) as Hdocs.
  { intros d Hd. apply list_elem_of_fmap in Hd as (d0 & -> & Hd0).
    rewrite !stringify_id_other by done. destruct (Hstored d0 Hd0). by split. }
  exists id, oid, lead, stored. split_and!; try done.
  - rewrite length_fmap. unfold stored. rewrite length_take. lia.
  - unfold stored, find. etrans; [apply sublist_take | apply sublist_filter].
  - intros st0 authorization0 other fresh now payload response w0 Ho Hne Hpost.
    destruct (get_current_customer_Ok _ _ _ _ Ho) as (_ & _ & id0 & _ & Hid0).
    unfold POST_feedback in Hpost.
    rewrite (route_eval _ _ _ _ Ho), submit_feedback_eval, Hid0 in Hpost.
    destruct (Bson.parse (FeedbackCreate.lead_id payload)); [|done].
    destruct (head (find st0 "lead" _)); [|done].
    destruct (Feedback.new _ _ _ _ _ _) as [data|] eqn:Hnew; [|done].
    injection Hpost as _ <-. eexists. split; [done|].
    intros Hmem. apply Hdocs in Hmem as [Hcid _].
    rewrite stringify_id_other in Hcid by done.
    destruct (feedback_document_fields fresh data) as (_ & _ & Hf & _).
    unfold Feedback.new in Hnew. destruct (_ && _); [|done]. injection Hnew as <-.
    simpl in Hf. rewrite Hf in Hcid. injection Hcid as Heq.
    apply BsonFacts.to_str_inj in Heq. congruence.
Qed.

(** Feedback is kept under the lead identifier as the request spelled it.
    When two different strings denote the same identifier (upper and lower
    case, say), feedback posted under one is stored under that string, and
    GET /feedback under the other passes the same ownership check but
    returns what it returned before, without the new record. *)
Theorem feedback_keyed_by_spelling (st : Store) (authorization : option string)
    (customer lead : dict) (fresh : ObjectId) (now : datetime)
    (payload : FeedbackCreate.t) (other_spelling : string) (oid : ObjectId) :
  get_current_customer authorization (Some st) = (Ok customer, Some st) →
  find_own_lead (FeedbackCreate.lead_id payload) customer (Some st)
    = (Ok (Some lead), Some st) →
  Feedback.rating_ok (FeedbackCreate.rating payload) = true →
  Feedback.disposition_ok
    (disposition_or_default (FeedbackCreate.disposition payload)) = true →
  Bson.parse (FeedbackCreate.lead_id payload) = Some oid →
  Bson.parse other_spelling = Some oid →
  other_spelling ≠ FeedbackCreate.lead_id payload →
  ∃ (feedback : dict) (before : list dict),
    POST_feedback fresh now authorization payload (Some st)
      = (Ok ({["id" := VStr (Bson.to_str fresh)]} : dict),
         Some (insert_one st "feedback" feedback)) ∧
    feedback !! "lead_id" = Some (VStr (FeedbackCreate.lead_id payload)) ∧
    GET_feedback authorization other_spelling (Some st) = (Ok before, Some st) ∧
    GET_feedback authorization other_spelling (Some (insert_one st "feedback" feedback))
      = (Ok before, Some (insert_one st "feedback" feedback)) ∧
    stringify_id feedback ∉ before.
Proof.
  intros Hc Hlead Hrating Hdisp Hparse Hother Hne.
  destruct (get_current_customer_Ok _ _ _ _ Hc) as (_ & _ & id & _ & Hid).
  rewrite find_own_lead_eval, Hid, Hparse in Hlead. injection Hlead as Hlead.
  unfold POST_feedback, GET_feedback.
  rewrite !(route_eval _ _ _ _ Hc), submit_feedback_eval.
  rewrite Hparse, Hid, Hlead, Feedback_new_Ok by done.
  set (data := Feedback.make _ _ _ _ _ _).
  destruct (feedback_document_fields fresh data) as (_ & Hlid & _).
  unfold data in Hlid at 2. cbn [Feedback.lead_id] in Hlid.
  eexists (feedback_document fresh data), _. split; [done|]. split; [done|].
  rewrite (get_feedback_for_lead_eval' _ _ _ _ Hid), Hother, Hlead.
  split; [done|].
  assert (get_current_customer authorization
            (Some (insert_one st "feedback" (feedback_document fresh data)))
          = (Ok customer, Some (insert_one st "feedback" (feedback_document fresh data))))
    as Hc'.
  { rewrite get_current_customer_insert_one by done. by rewrite Hc. }
  assert (¬ matches (feedback_filter other_spelling (VObjectId id))
              (feedback_document fresh data)) as Hnot.
  { intros Hm. apply matches_feedback_filter in Hm as [Hm _]. congruence. }
  split.
  - rewrite (route_eval _ _ _ _ Hc'), (get_feedback_for_lead_eval' _ _ _ _ Hid), Hother.
    rewrite find_insert_one_ne, Hlead by done.
    by rewrite find_insert_one, decide_False, app_nil_r.
  - intros Hmem. apply list_elem_of_fmap in Hmem as (d & Heq & Hd).
    apply subseteq_take in Hd. apply list_elem_of_filter in Hd as [Hm _].
    apply matches_feedback_filter in Hm as [Hm _].
    rewrite <- (stringify_id_other d "lead_id"), <- Heq, stringify_id_other in Hm by done.
    congruence.
Qed.

Lemma feedback_keyed_by_spelling_witness :
  ∃ (feedback : dict),
    POST_feedback Example.feedback_id Example.noon Example.alice_header
      (FeedbackCreate.make Sample.lead_id_upper (Some 4%Z) None None)
      (Some Example.store_with_lead)
      = (Ok ({["id" := VStr (Bson.to_str Example.feedback_id)]} : dict),
         Some (insert_one Example.store_with_lead "feedback" feedback)) ∧
    GET_feedback Example.alice_header (Bson.to_str Example.lead_id)
      (Some (insert_one Example.store_with_lead "feedback" feedback))
      = (Ok [], Some (insert_one Example.store_with_lead "feedback" feedback)).
Proof.
  destruct (feedback_keyed_by_spelling Example.store_with_lead Example.alice_header
              Example.alice Example.jane Example.feedback_id Example.noon
              (FeedbackCreate.make Sample.lead_id_upper (Some 4%Z) None None)
              (Bson.to_str Example.lead_id) Example.lead_id)
    as (feedback & before & Hpost & _ & Hbefore & Hafter & _).
  - reflexivity.
  - reflexivity.
  - reflexivity.
  - reflexivity.
  - reflexivity.
  - reflexivity.
  - compute_done.
  - exists feedback. split; [exact Hpost|].
    assert (before = []) as Hnil.
    { assert ((Ok before, Some Example.store_with_lead)
              = (Ok ([] : list dict), Some Example.store_with_lead)) as Heq
        by (rewrite <- Hbefore; reflexivity).
      apply (f_equal (λ p, match fst p with Ok l => l | Raise _ => [] end)) in Heq.
      exact Heq. }
    rewrite Hnil in Hafter. exact Hafter.
Defined.

Lemma feedback_listing_isolation_witness :
  ∃ (docs : list dict),
    GET_feedback Example.alice_header (Bson.to_str Example.lead_id)
      (Some Sample.store_with_feedback)
      = (Ok docs, Some Sample.store_with_feedback) ∧
    docs = [stringify_id Sample.praise] ∧
    length docs ≤ 200 ∧
    (∀ d, d ∈ docs →
       d !! "customer_id" = Some (VStr (Bson.to_str Example.alice_id)) ∧
       d !! "lead_id" = Some (VStr (Bson.to_str Example.lead_id))) ∧
    POST_feedback Sample.complaint_id Example.noon Example.bob_header
      (FeedbackCreate.make (Bson.to_str Sample.bob_lead_id) (Some 1%Z) None None)
      (Some Sample.store_with_feedback)
      = (Ok (created Sample.complaint_id),
         Some (insert_one Sample.store_with_feedback "feedback" Sample.complaint)) ∧
    stringify_id Sample.complaint ∉ docs.
Proof.
  assert (POST_feedback Sample.complaint_id Example.noon Example.bob_header
            (FeedbackCreate.make (Bson.to_str Sample.bob_lead_id) (Some 1%Z) None None)
            (Some Sample.store_with_feedback)
          = (Ok (created Sample.complaint_id),
             Some (insert_one Sample.store_with_feedback "feedback" Sample.complaint)))
    as Hpost by reflexivity.
  destruct (feedback_listing_isolation Sample.store_with_feedback Example.alice_header
              Example.alice (Bson.to_str Example.lead_id) [stringify_id Sample.praise]
              (Some Sample.store_with_feedback))
    as (id & oid & lead & stored & _ & Hid & _ & _ & _ & _ & _ & Hlen & _ & Hown & Hiso).
  - reflexivity.
  - reflexivity.
  - assert (Some (VObjectId id) = Some (VObjectId Example.alice_id)) as Heq
      by (rewrite <- Hid; reflexivity).
    injection Heq as ->.
    exists [stringify_id Sample.praise]. split; [reflexivity|]. split; [reflexivity|].
    split; [exact Hlen|]. split; [exact Hown|]. split; [exact Hpost|].
    destruct (Hiso Sample.store_with_feedback Example.bob_header Example.bob
                Sample.complaint_id Example.noon
                (FeedbackCreate.make (Bson.to_str Sample.bob_lead_id) (Some 1%Z) None None)
                (created Sample.complaint_id)
                (Some (insert_one Sample.store_with_feedback "feedback" Sample.complaint)))
      as (feedback & Hw & Hnot).
    + reflexivity.
    + compute_done.
    + exact Hpost.
    + assert (feedback = Sample.complaint) as <-; [|exact Hnot].
      apply (f_equal (λ w : option Store,
                        match w with
                        | Some st => last (collection st "feedback")
                        | None => None
                        end)) in Hw.
      cbv beta iota in Hw. rewrite !collection_insert_one, !last_snoc in Hw. congruence.
Defined.

Lemma find_own_lead_insert_feedback (st : Store) (doc : dict) (oid : ObjectId) (id : Value) :
  find (insert_one st "feedback" doc) "lead" (own_lead_filter oid id)
  = find st "lead" (own_lead_filter oid id).
Proof. by apply find_insert_one_ne. Qed.

(** Submitting feedback, then listing.  After POST /feedback, GET
    /feedback under the same lead_id holds one record more than the records
    stored for that customer and lead_id, up to the limit of 200.  As long
    as fewer than 200 were stored, it holds the records listed before and,
    beside them, the new record: identifier as text the one POST /feedback
    returned, the lead_id and the rating as submitted, customer_id the
    caller's identifier, and the disposition submitted or "follow_up".
    Nothing is said of the order of the listing, nor of the form in which
    the store gives the timestamp back. *)
Theorem feedback_created_then_listed (st : Store) (authorization : option string)
    (customer lead : dict) (fresh : ObjectId) (now : datetime)
    (payload : FeedbackCreate.t) :
  get_current_customer authorization (Some st) = (Ok customer, Some st) →
  find_own_lead (FeedbackCreate.lead_id payload) customer (Some st)
    = (Ok (Some lead), Some st) →
  Feedback.rating_ok (FeedbackCreate.rating payload) = true →
  Feedback.disposition_ok
    (disposition_or_default (FeedbackCreate.disposition payload)) = true →
  ∃ (id : ObjectId) (feedback : dict) (before after : list dict),
    customer !! "_id" = Some (VObjectId id) ∧
    POST_feedback fresh now authorization payload (Some st)
      = (Ok ({["id" := VStr (Bson.to_str fresh)]} : dict),
         Some (insert_one st "feedback" feedback)) ∧
    GET_feedback authorization (FeedbackCreate.lead_id payload) (Some st)
      = (Ok before, Some st) ∧
    GET_feedback authorization (FeedbackCreate.lead_id payload)
      (Some (insert_one st "feedback" feedback))
      = (Ok after, Some (insert_one st "feedback" feedback)) ∧
    let stored :=
      count st "feedback" (feedback_filter (FeedbackCreate.lead_id payload) (VObjectId id)) in
    length after = Nat.min 200 (S stored) ∧
    (stored < 200 →
     ∃ listed,
       after ≡ₚ listed :: before ∧
       listed !! "_id" = Some (VStr (Bson.to_str fresh)) ∧
       listed !! "lead_id" = Some (VStr (FeedbackCreate.lead_id payload)) ∧
       listed !! "customer_id" = Some (VStr (Bson.to_str id)) ∧
       listed !! "rating" = Some (of_opt_int (FeedbackCreate.rating payload)) ∧
       listed !! "disposition"
         = Some (VStr (disposition_or_default (FeedbackCreate.disposition payload)))).
Proof.
  intros Hc Hlead Hrating Hdisp.
  destruct (get_current_customer_Ok _ _ _ _ Hc) as (_ & _ & id & _ & Hid).
  rewrite find_own_lead_eval, Hid in Hlead.
  destruct (Bson.parse (FeedbackCreate.lead_id payload)) as [oid|] eqn:Hparse; [|done].
  injection Hlead as Hlead.
  unfold POST_feedback, GET_feedback.
  rewrite !(route_eval _ _ _ _ Hc), submit_feedback_eval.
  rewrite Hparse, Hid, Hlead, Feedback_new_Ok by done.
  set (data := Feedback.make _ _ _ _ _ _).
  destruct (feedback_document_fields fresh data) as (Hf1 & Hf2 & Hf3 & Hf4 & Hf5 & _).
  unfold data in Hf2 at 2, Hf3 at 2, Hf4 at 2, Hf5 at 2.
  cbn [Feedback.lead_id Feedback.customer_id Feedback.rating Feedback.disposition]
    in Hf2, Hf3, Hf4, Hf5.
  assert (get_current_customer authorization
            (Some (insert_one st "feedback" (feedback_document fresh data)))
          = (Ok customer, Some (insert_one st "feedback" (feedback_document fresh data))))
    as Hc'.
  { rewrite get_current_customer_insert_one by done. by rewrite Hc. }
  eexists id, (feedback_document fresh data), _, _.
  split; [done|]. split; [done|].
  rewrite (get_feedback_for_lead_eval' _ _ _ _ Hid), Hparse, Hlead. split; [done|].
  rewrite (route_eval _ _ _ _ Hc'), (get_feedback_for_lead_eval' _ _ _ _ Hid), Hparse.
  rewrite find_own_lead_insert_feedback, Hlead.
  rewrite find_insert_one, decide_True by (by apply matches_feedback_filter).
  split; [done|]. unfold count.
  set (had := find st "feedback"
                (feedback_filter (FeedbackCreate.lead_id payload) (VObjectId id))).
  split.
  - rewrite length_fmap, length_take, length_app. cbn [length]. lia.
  - intros Hn. exists (stringify_id (feedback_document fresh data)).
    split_and!.
    + rewrite !take_ge by (rewrite ?length_app; simpl; lia).
      rewrite fmap_app. simpl. symmetry. apply Permutation_cons_append.
    + exact (stringify_id_id _ _ Hf1).
    + by rewrite stringify_id_other.
    + by rewrite stringify_id_other.
    + by rewrite stringify_id_other.
    + by rewrite stringify_id_other.
Qed.

Lemma feedback_created_then_listed_witness :
  ∃ (feedback listed : dict) (after : list dict),
    POST_feedback Sample.complaint_id Example.noon Example.alice_header
      (FeedbackCreate.make (Bson.to_str Example.lead_id) (Some 5%Z) None None)
      (Some Sample.store_with_feedback)
      = (Ok ({["id" := VStr (Bson.to_str Sample.complaint_id)]} : dict),
         Some (insert_one Sample.store_with_feedback "feedback" feedback)) ∧
    GET_feedback Example.alice_header (Bson.to_str Example.lead_id)
      (Some (insert_one Sample.store_with_feedback "feedback" feedback))
      = (Ok after, Some (insert_one Sample.store_with_feedback "feedback" feedback)) ∧
    after ≡ₚ [listed; stringify_id Sample.praise] ∧
    listed !! "_id" = Some (VStr (Bson.to_str Sample.complaint_id)) ∧
    listed !! "rating" = Some (VInt 5) ∧
    listed !! "disposition" = Some (VStr "follow_up").
Proof.
  destruct (feedback_created_then_listed Sample.store_with_feedback Example.alice_header
              Example.alice Example.jane Sample.complaint_id Example.noon
              (FeedbackCreate.make (Bson.to_str Example.lead_id) (Some 5%Z) None None))
    as (id & feedback & before & after & Hid & Hpost & Hbefore & Hafter & _ & Hfew).
  - reflexivity.
  - reflexivity.
  - reflexivity.
  - reflexivity.
  - assert (Some (VObjectId id) = Some (VObjectId Example.alice_id)) as Heq
      by (rewrite <- Hid; reflexivity).
    injection Heq as ->.
    assert (before = [stringify_id Sample.praise]) as ->.
    { assert ((Ok before, Some Sample.store_with_feedback)
              = (Ok [stringify_id Sample.praise], Some Sample.store_with_feedback)) as Heq
        by (rewrite <- Hbefore; reflexivity).
      apply (f_equal (λ p, match fst p with Ok l => l | Raise _ => [] end)) in Heq.
      exact Heq. }
    destruct Hfew as (listed & Hperm & Hl1 & _ & _ & Hl4 & Hl5).
    { compute_done. }
    exists feedback, listed, after. split_and!; assumption.
Defined.

(** ** A created lead, then feedback on it *)

Lemma head_filter_snoc {A} (P : A → Prop) `{!∀ x, Decision (P x)} (l : list A) (x : A) :
  P x → is_Some (head (filter P (l ++ [x]))).
Proof.
  intros Hx. rewrite filter_app, head_app.
  destruct (head (filter P l)); [by eexists|].
  rewrite filter_cons_True by done. by eexists.
Qed.

(** Leads and feedback compose.  The identifier POST /leads returns, when
    it is one the store generated, is accepted as lead_id by POST /feedback
    of the same customer, which stores one feedback record.  For another
    customer the same lead_id is refused with NotFound by both feedback
    routes, and nothing is stored, provided no lead carried the identifier
    before. *)
Theorem lead_then_feedback `{EmailValidator} (st : Store)
    (authorization : option string) (customer : dict) (fresh fresh' : ObjectId)
    (now : datetime) (payload : LeadCreate.t) (email : option string)
    (rating : option Z) (comment : option string) :
  get_current_customer authorization (Some st) = (Ok customer, Some st) →
  Optional_EmailStr (LeadCreate.email payload) = Ok email →
  Bson.generated fresh →
  Feedback.rating_ok rating = true →
  let feedback_payload := FeedbackCreate.make (Bson.to_str fresh) rating None comment in
  ∃ (st' : Store) (feedback : dict),
    POST_leads fresh authorization payload (Some st)
      = (Ok ({["id" := VStr (Bson.to_str fresh)]} : dict), Some st') ∧
    POST_feedback fresh' now authorization feedback_payload (Some st')
      = (Ok ({["id" := VStr (Bson.to_str fresh')]} : dict),
         Some (insert_one st' "feedback" feedback)) ∧
    feedback !! "lead_id" = Some (VStr (Bson.to_str fresh)) ∧
    (∀ (authorization0 : option string) (other : dict),
       get_current_customer authorization0 (Some st) = (Ok other, Some st) →
       other !! "_id" ≠ customer !! "_id" →
       (∀ l, l ∈ collection st "lead" → l !! "_id" ≠ Some (VObjectId fresh)) →
       POST_feedback fresh' now authorization0 feedback_payload (Some st')
         = (Raise NotFound, Some st') ∧
       GET_feedback authorization0 (Bson.to_str fresh) (Some st')
         = (Raise NotFound, Some st')).
Proof.
  intros Hc Hemail Hgen Hrating feedback_payload.
  destruct (get_current_customer_Ok _ _ _ _ Hc) as (_ & _ & id & _ & Hid).
  unfold POST_leads. rewrite (route_eval _ _ _ _ Hc), create_lead_eval, Hid.
  destruct (Lead.new _ _ _ _ _) as [data|e] eqn:Hnew;
    [|unfold Lead.new in Hnew; by rewrite Hemail in Hnew].
  apply Lead_new_fields in Hnew as (Hcid & _).
  destruct (lead_document_fields fresh data) as (Hl1 & Hl2 & _).
  rewrite Hcid in Hl2.
  set (st' := insert_one st "lead" (lead_document fresh data)).
  assert (∀ a c, get_current_customer a (Some st) = (Ok c, Some st) →
                 get_current_customer a (Some st') = (Ok c, Some st')) as Hauth.
  { intros a c Ha. unfold st'. rewrite get_current_customer_insert_one by done.
    by rewrite Ha. }
  assert (matches (own_lead_filter fresh (VObjectId id)) (lead_document fresh data)) as Hm
    by (by apply matches_own_lead).
  destruct (head_filter_snoc (matches (own_lead_filter fresh (VObjectId id)))
              (collection st "lead") (lead_document fresh data) Hm) as [found Hfound].
  assert (head (find st' "lead" (own_lead_filter fresh (VObjectId id))) = Some found)
    as Hfound'.
  { unfold find, st'. by rewrite collection_insert_one. }
  eexists st', _. split; [done|].
  unfold POST_feedback, GET_feedback.
  rewrite (route_eval _ _ _ _ (Hauth _ _ Hc)), submit_feedback_eval.
  cbn [feedback_payload FeedbackCreate.lead_id FeedbackCreate.rating
       FeedbackCreate.disposition FeedbackCreate.comment].
  rewrite (BsonFacts.parse_to_str _ Hgen), Hid, Hfound'.
  rewrite Feedback_new_Ok by done.
  split; [done|]. split.
  { apply feedback_document_fields. }
  intros authorization0 other Ho Hne Hnew.
  destruct (get_current_customer_Ok _ _ _ _ Ho) as (_ & _ & id0 & _ & Hid0).
  rewrite !(route_eval _ _ _ _ (Hauth _ _ Ho)).
  rewrite submit_feedback_eval, (get_feedback_for_lead_eval' _ _ _ _ Hid0).
  cbn [feedback_payload FeedbackCreate.lead_id].
  rewrite !(BsonFacts.parse_to_str _ Hgen), Hid0.
  assert (head (find st' "lead" (own_lead_filter fresh (VObjectId id0))) = None) as ->;
    [|done].
  apply head_None. unfold find, st'. rewrite collection_insert_one, filter_app.
  rewrite filter_cons_False, app_nil_r.
  - destruct (filter (matches (own_lead_filter fresh (VObjectId id0)))
                (collection st "lead")) as [|l ls] eqn:Hf; [done|]. exfalso.
    assert (l ∈ filter (matches (own_lead_filter fresh (VObjectId id0)))
                  (collection st "lead")) as Hl by (rewrite Hf; left).
    apply list_elem_of_filter in Hl as [Hlm Hl]. apply matches_own_lead in Hlm as [Hlm _].
    by destruct (Hnew l Hl).
  - intros Hm0. apply matches_own_lead in Hm0 as [_ Hm0].
    rewrite Hl2 in Hm0. injection Hm0 as Heq. apply BsonFacts.to_str_inj in Heq.
    congruence.
Qed.

Lemma lead_then_feedback_witness :
  ∃ (st' : Store) (feedback : dict),
    POST_leads (H0 := Example.at_sign) Example.lead_id Example.alice_header
      (LeadCreate.make "Jane" None None None) (Some Example.store)
      = (Ok ({["id" := VStr (Bson.to_str Example.lead_id)]} : dict), Some st') ∧
    POST_feedback Example.feedback_id Example.noon Example.alice_header
      (FeedbackCreate.make (Bson.to_str Example.lead_id) (Some 3%Z) None None) (Some st')
      = (Ok ({["id" := VStr (Bson.to_str Example.feedback_id)]} : dict),
         Some (insert_one st' "feedback" feedback)) ∧
    GET_feedback Example.bob_header (Bson.to_str Example.lead_id) (Some st')
      = (Raise NotFound, Some st').
Proof.
  destruct (lead_then_feedback (H := Example.at_sign) Example.store Example.alice_header
              Example.alice Example.lead_id Example.feedback_id Example.noon
              (LeadCreate.make "Jane" None None None) None (Some 3%Z) None)
    as (st' & feedback & Hpost & Hfeedback & _ & Hother).
  - reflexivity.
  - reflexivity.
  - reflexivity.
  - reflexivity.
  - exists st', feedback. split; [exact Hpost|]. split; [exact Hfeedback|].
    apply (Hother Example.bob_header Example.bob).
    + reflexivity.
    + compute_done.
    + intros l Hl. exfalso. revert Hl. apply not_elem_of_nil.
Defined.

Lemma feedback_ownership_check_witness :
  POST_feedback Example.feedback_id Example.noon Example.bob_header
    (FeedbackCreate.make (Bson.to_str Example.lead_id) (Some 5%Z) None None)
    (Some Example.store_with_lead) = (Raise NotFound, Some Example.store_with_lead) ∧
  GET_feedback Example.bob_header (Bson.to_str Example.lead_id)
    (Some Example.store_with_lead) = (Raise NotFound, Some Example.store_with_lead).
Proof.
  apply (feedback_ownership_check Example.store_with_lead Example.bob_header Example.bob
           Example.bob_id Example.lead_id).
  - reflexivity.
  - reflexivity.
  - reflexivity.
  - intros lead Hlead [_ Hcid].
    assert (lead = Example.jane) as ->.
    { apply list_elem_of_singleton. exact Hlead. }
    revert Hcid. compute_done.
Defined.

(** ** The Authorization header: edge cases *)

Lemma has_char_app (c : ascii) (s1 s2 : string) :
  PyStr.has_char c (s1 +:+ s2) = PyStr.has_char c s1 || PyStr.has_char c s2.
Proof.
  induction s1 as [|d s1 IH]; [done|]. simpl.
  destruct (decide (c = d)); [done | exact IH].
Qed.

Lemma replace_app_absent (a : ascii) (old' new s t : string) :
  PyStr.has_char a s = false →
  PyStr.replace (String a old') new (s +:+ t) = s +:+ PyStr.replace (String a old') new t.
Proof.
  induction s as [|c s IH]; [done|].
  cbn [PyStr.has_char]. case_decide as Hc; [done|]. intros Hs.
  change (String c s +:+ t) with (String c (s +:+ t)). rewrite PyStrFacts.replace_other.
  - by rewrite IH.
  - simpl. by destruct (ascii_dec a c).
Qed.

Lemma length_string_app (s t : string) :
  String.length (s +:+ t) = String.length s + String.length t.
Proof. induction s as [|c s IH]; simpl; [done | by rewrite IH]. Qed.

Lemma truthy_app_r (s t : string) : PyStr.truthy t = true → PyStr.truthy (s +:+ t) = true.
Proof. by destruct s. Qed.

(** The prefix is dropped wherever it stands.  For an identifier generated
    by the store and any way of cutting its text in two, the header that
    holds "Bearer " between the two parts resolves as the well-formed
    header does, for customers and for admins and whatever the store. *)
Theorem bearer_anywhere {DB} `{Database DB} (w : option DB) (oid : ObjectId)
    (s1 s2 : string) :
  Bson.to_str oid = s1 +:+ s2 →
  let header := s1 +:+ "Bearer " +:+ s2 in
  let well_formed := "Bearer " +:+ Bson.to_str oid in
  PyStr.replace "Bearer " "" header = Bson.to_str oid ∧
  get_current_customer (Some header) w = get_current_customer (Some well_formed) w ∧
  get_current_admin (Some header) w = get_current_admin (Some well_formed) w.
Proof.
  intros Hcut header well_formed.
  pose proof (BsonFacts.hexlify_no_B (Bson.binary oid)) as HnoB.
  fold (Bson.to_str oid) in HnoB. rewrite Hcut, has_char_app in HnoB.
  apply orb_false_iff in HnoB as [H1 H2].
  assert (PyStr.replace "Bearer " "" header = Bson.to_str oid) as Hheader.
  { unfold header. rewrite replace_app_absent by done.
    rewrite (PyStrFacts.replace_occurrence "B" "earer " "" s2).
    rewrite PyStrFacts.replace_absent by done. by rewrite Hcut. }
  assert (PyStr.replace "Bearer " "" well_formed = Bson.to_str oid) as Hwell
    by apply (token_of_prefixed 1).
  assert (PyStr.truthy header = PyStr.truthy well_formed) as Ht.
  { unfold header. by rewrite truthy_app_r. }
  split; [done|]. split.
  - apply get_current_customer_token; congruence.
  - apply get_current_admin_token; congruence.
Qed.

Lemma bearer_anywhere_witness :
  get_current_customer (Some "616161616161Bearer 616161616161") (Some Example.store)
  = get_current_customer Example.alice_header (Some Example.store).
Proof.
  destruct (bearer_anywhere (Some Example.store) Example.alice_id
              "616161616161" "616161616161") as (_ & Hsame & _).
  - reflexivity.
  - exact Hsame.
Defined.

(** A header whose token is not 24 characters long is refused with the
    status 401 before the store is consulted, whatever the store; so the
    scheme is case-sensitive: "bearer <id>" is refused even for the
    identifier of a stored customer. *)
Theorem malformed_header_refused {DB} `{Database DB} (d : DB) (header : string)
    (oid : ObjectId) :
  (PyStr.truthy header = true →
   String.length (PyStr.replace "Bearer " "" header) ≠ 24 →
   get_current_customer (Some header) (Some d)
     = (Raise (Unauthorized "Invalid token"), Some d) ∧
   get_current_admin (Some header) (Some d)
     = (Raise (Unauthorized "Invalid token"), Some d)) ∧
  get_current_customer (Some ("bearer " +:+ Bson.to_str oid)) (Some d)
    = (Raise (Unauthorized "Invalid token"), Some d) ∧
  get_current_admin (Some ("bearer " +:+ Bson.to_str oid)) (Some d)
    = (Raise (Unauthorized "Invalid token"), Some d).
Proof.
  assert (∀ h, PyStr.truthy h = true →
               String.length (PyStr.replace "Bearer " "" h) ≠ 24 →
               get_current_customer (Some h) (Some d)
                 = (Raise (Unauthorized "Invalid token"), Some d) ∧
               get_current_admin (Some h) (Some d)
                 = (Raise (Unauthorized "Invalid token"), Some d)) as Hgeneral.
  { intros h Ht Hlen.
    unfold get_current_customer, get_current_admin, ObjectId_of, Bson.parse.
    unfold_monad. simpl. rewrite Ht. simpl. by rewrite decide_False. }
  split; [apply Hgeneral|].
  apply Hgeneral; [done|].
  rewrite (replace_app_absent "B" "earer " "" "bearer " (Bson.to_str oid)) by done.
  rewrite PyStrFacts.replace_absent by apply BsonFacts.hexlify_no_B.
  rewrite length_string_app. unfold Bson.to_str.
  rewrite BsonFacts.length_hexlify. simpl. lia.
Qed.

Lemma malformed_header_refused_witness :
  get_current_customer (Some "Token 616161616161616161616161") (Some Example.store)
  = (Raise (Unauthorized "Invalid token"), Some Example.store).
Proof.
  destruct (malformed_header_refused Example.store "Token 616161616161616161616161"
              Example.alice_id) as [Hgeneral _].
  destruct Hgeneral as [Hcustomer _].
  - reflexivity.
  - compute_done.
  - exact Hcustomer.
Defined.

(** ** Login: records with missing fields, and the truth test of the handle *)

(** Login on records that lack a field, on a store whose customers have
    distinct emails.  A customer record without a password_hash, or with
    one that is not a string, never logs in, whatever the password and
    whatever the truth test of the handle does; where the handle tests true
    the answer is Unauthorized.  Where the handle tests true, a record
    without a name logs in, with its own password_hash, under the name
    "User". *)
Theorem login_missing_fields (st : Store) (payload : LoginRequest.t) (c : dict) :
  unique_emails (collection st "customer") →
  c ∈ collection st "customer" →
  c !! "email" = Some (VStr (LoginRequest.email payload)) →
  ((∀ s, c !! "password_hash" ≠ Some (VStr s)) →
   (∀ response, fst (login payload (Some st)) ≠ Ok response) ∧
   (handle_truth st = Ok true →
    login payload (Some st) = (Raise (Unauthorized "Invalid credentials"), Some st))) ∧
  (handle_truth st = Ok true →
   c !! "password_hash" = Some (VStr (LoginRequest.password payload)) →
   c !! "name" = None →
   login payload (Some st)
   = (Ok (LoginResponse.make (py_str (dict_get c "_id")) (py_str (dict_get c "_id")) "User"),
      Some st)).
Proof.
  intros Huniq Hc Hemail. rewrite login_eval.
  rewrite (find_by_key st "customer" "email" _ c) by done. split.
  - intros Hnone.
    assert (VStr (LoginRequest.password payload) ≠ dict_get c "password_hash") as Hne.
    { unfold dict_get. intros Heq. apply (Hnone (LoginRequest.password payload)).
      destruct (c !! "password_hash"); simpl in Heq; congruence. }
    rewrite decide_False by done. split.
    + intros response. by destruct (handle_truth st) as [[]|].
    + by intros ->.
  - intros -> Hpw Hname. rewrite decide_True by (unfold dict_get; by rewrite Hpw).
    unfold dict_get_default. by rewrite Hname.
Qed.

Lemma sample_incomplete_unique :
  unique_emails (collection Sample.store_incomplete "customer").
Proof. unfold unique_emails. compute_done. Defined.

Lemma login_missing_fields_witness :
  login (LoginRequest.make "n@x.com" "pw3") (Some Sample.store_incomplete)
  = (Ok (LoginResponse.make (Bson.to_str Example.lead_id) (Bson.to_str Example.lead_id)
           "User"), Some Sample.store_incomplete)
  ∧ login (LoginRequest.make "p@x.com" "None") (Some Sample.store_incomplete)
    = (Raise (Unauthorized "Invalid credentials"), Some Sample.store_incomplete)
  ∧ ∀ response,
      fst (login (LoginRequest.make "p@x.com" "") (Some Sample.store_incomplete_untestable))
      ≠ Ok response.
Proof.
  split_and!.
  - destruct (login_missing_fields Sample.store_incomplete
                (LoginRequest.make "n@x.com" "pw3") Sample.nameless) as [_ Hname].
    + exact sample_incomplete_unique.
    + compute_done.
    + reflexivity.
    + apply Hname; reflexivity.
  - destruct (login_missing_fields Sample.store_incomplete
                (LoginRequest.make "p@x.com" "None") Sample.passwordless) as [Hpw _].
    + exact sample_incomplete_unique.
    + compute_done.
    + reflexivity.
    + destruct Hpw as [_ Hrefused]; [intros s; compute_done|].
      apply Hrefused. reflexivity.
  - destruct (login_missing_fields Sample.store_incomplete_untestable
                (LoginRequest.make "p@x.com" "") Sample.passwordless) as [Hpw _].
    + exact sample_incomplete_unique.
    + compute_done.
    + reflexivity.
    + destruct Hpw as [Hnever _]; [intros s; compute_done|].
      exact Hnever.
Defined.

Lemma find_with_truth (truth : Result bool) (st : Store) (name : string) (flt : dict) :
  find (with_truth truth st) name flt = find st name flt.
Proof. done. Qed.

(** Only [login] depends on the truth test of the handle.  Whatever the
    store: when the test raises, [login] raises with it, and when it
    answers false [login] refuses every credential.  On the in-memory
    store, admin login, token resolution and the four authenticated routes
    answer the same whatever the test does. *)
Theorem only_login_tests_the_handle {DB} `{Database DB} `{EmailValidator}
    (d d' : DB) (st : Store) (truth : Result bool) :
  (∀ payload e, db_bool d = (Raise e, d') →
     login payload (Some d) = (Raise e, Some d')) ∧
  (∀ payload, db_bool d = (Ok false, d') →
     login payload (Some d) = (Raise (Unauthorized "Invalid credentials"), Some d')) ∧
  (∀ payload, fst (admin_login payload (Some (with_truth truth st)))
              = fst (admin_login payload (Some st))) ∧
  (∀ authorization,
     fst (get_current_customer authorization (Some (with_truth truth st)))
     = fst (get_current_customer authorization (Some st)) ∧
     fst (get_current_admin authorization (Some (with_truth truth st)))
     = fst (get_current_admin authorization (Some st)) ∧
     fst (GET_leads authorization (Some (with_truth truth st)))
     = fst (GET_leads authorization (Some st))) ∧
  (∀ fresh authorization payload,
     fst (POST_leads fresh authorization payload (Some (with_truth truth st)))
     = fst (POST_leads fresh authorization payload (Some st))) ∧
  (∀ fresh now authorization payload,
     fst (POST_feedback fresh now authorization payload (Some (with_truth truth st)))
     = fst (POST_feedback fresh now authorization payload (Some st))) ∧
  (∀ authorization lead_id,
     fst (GET_feedback authorization lead_id (Some (with_truth truth st)))
     = fst (GET_feedback authorization lead_id (Some st))).
Proof.
  assert (∀ authorization,
            fst (get_current_customer authorization (Some (with_truth truth st)))
            = fst (get_current_customer authorization (Some st))) as Hcustomer.
  { intros authorization. by rewrite !get_current_customer_eval. }
  assert (∀ A (handler : dict → M (option Store) A) authorization,
            (∀ c, fst (handler c (Some (with_truth truth st)))
                  = fst (handler c (Some st))) →
            fst ((let* c := get_current_customer authorization in handler c)
                   (Some (with_truth truth st)))
            = fst ((let* c := get_current_customer authorization in handler c) (Some st)))
    as Hroute.
  { intros A handler authorization Hhandler. rewrite !route_cases, Hcustomer.
    destruct (fst (get_current_customer authorization (Some st))); [apply Hhandler|done]. }
  split_and!.
  - intros payload e Hbool.
    unfold login, get_customer_by_email, db_truthy. unfold_monad. by rewrite Hbool.
  - intros payload Hbool.
    unfold login, get_customer_by_email, db_truthy. unfold_monad. by rewrite Hbool.
  - intros payload. by rewrite !admin_login_eval.
  - intros authorization. split; [apply Hcustomer|]. split.
    + by rewrite !get_current_admin_eval.
    + apply Hroute. intros c. rewrite !list_leads_eval. by destruct (c !! "_id").
  - intros fresh authorization payload. apply Hroute. intros c.
    rewrite !create_lead_eval. destruct (c !! "_id"); [|done].
    by destruct (Lead.new _ _ _ _ _).
  - intros fresh now authorization payload. apply Hroute. intros c.
    rewrite !submit_feedback_eval. destruct (Bson.parse _); [|done].
    destruct (c !! "_id"); [|done]. rewrite find_with_truth.
    destruct (head _); [|done]. by destruct (Feedback.new _ _ _ _ _ _).
  - intros authorization lead_id. apply Hroute. intros c.
    rewrite !get_feedback_for_lead_eval. destruct (Bson.parse _); [|done].
    destruct (c !! "_id"); [|done]. rewrite find_with_truth. by destruct (head _).
Qed.

Lemma only_login_tests_the_handle_witness :
  login (LoginRequest.make "a@x.com" "pw1") (Some Example.store_untestable)
  = (Raise NotImplementedError, Some Example.store_untestable).
Proof.
  destruct (only_login_tests_the_handle (H0 := Example.at_sign) Example.store_untestable
              Example.store_untestable Example.store (Ok true)) as (Hraise & _).
  apply Hraise. reflexivity.
Defined.

(** ** What no request does *)

Section Requests.
Context `{EmailValidator}.

(** A request leaves the store as it was, or with one document more at the
    end of the lead, feedback or admin collection; only POST /leads, POST
    /feedback and the startup hook, respectively, add one. *)
Lemma serve_step (st : Store) (r : Request) :
  serve (Some st) r = Some st ∨
  (∃ doc, serve (Some st) r = Some (insert_one st "lead" doc) ∧
          ∃ fresh authorization payload, r = PostLeads fresh authorization payload) ∨
  (∃ doc, serve (Some st) r = Some (insert_one st "feedback" doc) ∧
          ∃ fresh now authorization payload,
            r = PostFeedback fresh now authorization payload) ∨
  (∃ fresh, serve (Some st) r = Some (insert_one st "admin" (admin_document fresh)) ∧
            r = Startup fresh).
Proof.
  destruct r as [fresh|payload|payload|fresh authorization payload|authorization
                |fresh now authorization payload|authorization lead_id]; cbn [serve].
  - unfold startup_event. rewrite ensure_default_admin_eval. cbn [snd].
    destruct (head _); [by left|]. right. right. right. by exists fresh.
  - rewrite login_eval. by left.
  - rewrite admin_login_eval. by left.
  - unfold POST_leads. rewrite route_cases.
    destruct (fst (get_current_customer authorization (Some st))) as [c|]; [|by left].
    rewrite create_lead_eval. destruct (c !! "_id"); [|by left].
    destruct (Lead.new _ _ _ _ _); [|by left].
    right. left. eexists. split; [done|]. by eexists _, _, _.
  - unfold GET_leads. rewrite route_cases.
    destruct (fst (get_current_customer authorization (Some st))) as [c|]; [|by left].
    rewrite list_leads_eval. destruct (c !! "_id"); by left.
  - unfold POST_feedback. rewrite route_cases.
    destruct (fst (get_current_customer authorization (Some st))) as [c|]; [|by left].
    rewrite submit_feedback_eval. destruct (Bson.parse _); [|by left].
    destruct (c !! "_id"); [|by left]. destruct (head _); [|by left].
    destruct (Feedback.new _ _ _ _ _ _); [|by left].
    right. right. left. eexists. split; [done|]. by eexists _, _, _, _.
  - unfold GET_feedback. rewrite route_cases.
    destruct (fst (get_current_customer authorization (Some st))) as [c|]; [|by left].
    rewrite get_feedback_for_lead_eval. destruct (Bson.parse _); [|by left].
    destruct (c !! "_id"); [|by left]. destruct (head _); by left.
Qed.

Lemma serve_None (r : Request) : serve None r = None.
Proof. by destruct r. Qed.

Lemma collection_insert_one_prefix (st : Store) (name other : string) (doc : dict) :
  collection st other `prefix_of` collection (insert_one st name doc) other.
Proof.
  destruct (decide (name = other)) as [<-|Hne].
  - rewrite collection_insert_one. by apply prefix_app_r.
  - by rewrite collection_insert_one_ne.
Qed.

End Requests.

(** No request rewrites the store.  Whatever sequence of startups and
    requests is served, in whatever order and with whatever inputs: the
    customer collection is exactly as it was; every collection still begins
    with the documents it held, unchanged and in place (so the customer_id
    of a stored lead never changes and nothing is ever deleted); only the
    lead, feedback and admin collections can have grown; and without a
    startup in the sequence the admin collection is as it was. *)
Theorem requests_only_append `{EmailValidator} (rs : list Request) (st : Store) :
  ∃ st',
    serve_all (Some st) rs = Some st' ∧
    handle_truth st' = handle_truth st ∧
    collection st' "customer" = collection st "customer" ∧
    (∀ name, collection st name `prefix_of` collection st' name) ∧
    (∀ name i doc, collection st name !! i = Some doc →
                   collection st' name !! i = Some doc) ∧
    (∀ name, name ≠ "lead" → name ≠ "feedback" → name ≠ "admin" →
             collection st' name = collection st name) ∧
    ((∀ fresh, Startup fresh ∉ rs) → collection st' "admin" = collection st "admin").
Proof.
  revert st. induction rs as [|r rs IH]; intros st.
  { exists st. split_and!; done. }
  unfold serve_all in *. cbn [foldl].
  assert (∃ st1, serve (Some st) r = Some st1 ∧
            handle_truth st1 = handle_truth st ∧
            collection st1 "customer" = collection st "customer" ∧
            (∀ name, collection st name `prefix_of` collection st1 name) ∧
            (∀ name, name ≠ "lead" → name ≠ "feedback" → name ≠ "admin" →
                     collection st1 name = collection st name) ∧
            ((∀ fresh, r ≠ Startup fresh) →
             collection st1 "admin" = collection st "admin")) as Hstep.
  { assert (∀ name doc, name = "lead" ∨ name = "feedback" ∨ name = "admin" →
              handle_truth (insert_one st name doc) = handle_truth st ∧
              collection (insert_one st name doc) "customer" = collection st "customer" ∧
              (∀ other, collection st other
                          `prefix_of` collection (insert_one st name doc) other) ∧
              (∀ other, other ≠ "lead" → other ≠ "feedback" → other ≠ "admin" →
                        collection (insert_one st name doc) other = collection st other))
      as Hgrow.
    { intros name doc Hname. split; [done|]. split.
      - apply collection_insert_one_ne. by destruct Hname as [->|[->| ->]].
      - split; [intros other; apply collection_insert_one_prefix|].
        intros other ? ? ?. apply collection_insert_one_ne.
        by destruct Hname as [->|[->| ->]]. }
    destruct (serve_step st r)
      as [Hr|[(doc & Hr & fresh & a & p & ->)|[(doc & Hr & fresh & now & a & p & ->)
             |(fresh & Hr & Hstart)]]]; rewrite Hr; eexists; (split; [done|]).
    - split_and!; done.
    - destruct (Hgrow "lead" doc) as (? & ? & ? & ?); [by left|].
      split_and!; try done. intros _. by apply collection_insert_one_ne.
    - destruct (Hgrow "feedback" doc) as (? & ? & ? & ?); [by right; left|].
      split_and!; try done. intros _. by apply collection_insert_one_ne.
    - destruct (Hgrow "admin" (admin_document fresh)) as (? & ? & ? & ?); [by right; right|].
      split_and!; try done. intros Hno. by destruct (Hno fresh). }
  destruct Hstep as (st1 & -> & Ht1 & Hc1 & Hp1 & Ho1 & Ha1).
  destruct (IH st1) as (st' & Hrun & Ht & Hc & Hp & _ & Ho & Ha).
  assert (∀ name, collection st name `prefix_of` collection st' name) as Hprefix.
  { intros name. etrans; [apply Hp1 | apply Hp]. }
  exists st'. split_and!.
  - done.
  - congruence.
  - congruence.
  - done.
  - intros name i doc Hi. by eapply prefix_lookup_Some.
  - intros name ? ? ?. rewrite Ho, Ho1; done.
  - intros Hno. rewrite Ha, Ha1; [done| |].
    + intros fresh ->. apply (Hno fresh). left.
    + intros fresh Hin. apply (Hno fresh). by right.
Qed.

(** ** The diagnostic route *)

Module Utf8Facts.
Import Utf8.




(** The accented text of the example: 50 code points on 100 bytes. *)
Lemma accented_text_lengths :
  len (PyStr.times "é" 50) = 50 ∧ String.length (PyStr.times "é" 50) = 100.
Proof. split; reflexivity. Qed.

End Utf8Facts.


